(** * Quality review and revision-escalation pipeline

    A shallow embedding of [src/ceo-quality-control-agent.py]: the data
    model ([QualityMetrics], [QualityIssue], [WorkItem]), the review engine
    ([QualityReviewEngine]), the auto-fix transformers ([AutoFixEngine]) and
    the orchestrator ([CEOQualityControlAgent]), followed by the properties
    of the specification that concern them.

    Conventions of the embedding.
    - Text is a [string] of code points below 256.  The character classes
      of [re] and [str] are those of Python 3 on that range.
    - Python floats are exact rationals ([Q]); rounding is not modelled.
    - Python exceptions are values of [result]; a method that mutates its
      work item returns the item next to its result, so that what was
      written before an exception is still there afterwards.
    - Wall-clock timestamps are left out of the records. *)

From Stdlib Require Import QArith Qminmax Ascii String DecimalString Lia.
From stdpp Require Import gmap strings list.

(** ** Python strings *)

Module PyStr.

Definition NL : ascii := "010"%char.
Definition DQUOTE : ascii := "034"%char.
Definition SQUOTE : ascii := "039"%char.

Definition code (c : ascii) : nat := nat_of_ascii c.

Definition between (lo hi n : nat) : bool := (lo <=? n) && (n <=? hi).

(** [str.isspace] on one character, which is also the class [\s]. *)
Definition isspace (c : ascii) : bool :=
  existsb (Nat.eqb (code c)) [9; 10; 11; 12; 13; 28; 29; 30; 31; 32; 133; 160].

(** The class [\w]: [str.isalnum] or an underscore. *)
Definition isword (c : ascii) : bool :=
  let n := code c in
  between 48 57 n || between 65 90 n || between 97 122 n || (n =? 95)
  || existsb (Nat.eqb n) [170; 178; 179; 181; 185; 186; 188; 189; 190]
  || between 192 214 n || between 216 246 n || between 248 255 n.

Definition isupper (c : ascii) : bool :=
  let n := code c in
  between 65 90 n || (between 192 222 n && negb (n =? 215)).

(** Lower-case letters whose upper-case form is again below 256. *)
Definition islower_mapped (c : ascii) : bool :=
  let n := code c in
  between 97 122 n || (between 224 254 n && negb (n =? 247)).

(** Cased characters; 170, 181, 186, 223 and 255 are cased but have no
    upper-case form below 256 and are left as they are by [upper_char]. *)
Definition iscased (c : ascii) : bool :=
  isupper c || islower_mapped c
  || existsb (Nat.eqb (code c)) [170; 181; 186; 223; 255].

Definition lower_char (c : ascii) : ascii :=
  if isupper c then ascii_of_nat (code c + 32) else c.

Definition upper_char (c : ascii) : ascii :=
  if islower_mapped c then ascii_of_nat (code c - 32) else c.

Fixpoint smap (f : ascii -> ascii) (s : string) : string :=
  match s with
  | EmptyString => EmptyString
  | String c s' => String (f c) (smap f s')
  end.

(** [s.lower()] *)
Definition lower (s : string) : string := smap lower_char s.

(** [s.replace(a, b)] for single characters. *)
Definition replace_char (a b : ascii) (s : string) : string :=
  smap (fun c => if Ascii.eqb c a then b else c) s.

Fixpoint title_from (prev_cased : bool) (s : string) : string :=
  match s with
  | EmptyString => EmptyString
  | String c s' =>
      String (if iscased c
              then (if prev_cased then lower_char c else upper_char c)
              else c)
             (title_from (iscased c) s')
  end.

(** [s.title()] *)
Definition title (s : string) : string := title_from false s.

(** [s.startswith(p)] *)
Definition startswith (s p : string) : bool := String.prefix p s.

(** [needle in hay] *)
Fixpoint contains (needle hay : string) : bool :=
  String.prefix needle hay
  || match hay with
     | EmptyString => false
     | String _ hay' => contains needle hay'
     end.

(** [s.split('\n')] *)
Fixpoint split_nl (s : string) : list string :=
  match s with
  | EmptyString => [EmptyString]
  | String c s' =>
      if Ascii.eqb c NL then EmptyString :: split_nl s'
      else match split_nl s' with
           | l :: ls => String c l :: ls
           | [] => [String c EmptyString]
           end
  end.

(** ['\n'.join(ls)] *)
Fixpoint join_nl (ls : list string) : string :=
  match ls with
  | [] => EmptyString
  | l :: ls' =>
      match ls' with
      | [] => l
      | _ :: _ => l +:+ String NL (join_nl ls')
      end
  end.

(** [s.lstrip()] *)
Fixpoint lstrip (s : string) : string :=
  match s with
  | EmptyString => EmptyString
  | String c s' => if isspace c then lstrip s' else s
  end.

(** [s.rstrip()] *)
Fixpoint rstrip (s : string) : string :=
  match s with
  | EmptyString => EmptyString
  | String c s' =>
      match rstrip s' with
      | EmptyString => if isspace c then EmptyString else String c EmptyString
      | String d r => String c (String d r)
      end
  end.

(** [s.strip()] *)
Definition strip (s : string) : string := rstrip (lstrip s).

(** A string is falsy exactly when it is empty. *)
Definition truthy (s : string) : bool :=
  match s with EmptyString => false | String _ _ => true end.

(** [' ' * n] *)
Fixpoint spaces (n : nat) : string :=
  match n with
  | O => EmptyString
  | S n' => String " "%char (spaces n')
  end.

(** [len(s.split())]: the number of maximal runs of non-space characters. *)
Fixpoint count_words_from (in_word : bool) (s : string) : nat :=
  match s with
  | EmptyString => 0
  | String c s' =>
      if isspace c then count_words_from false s'
      else (if in_word then 0 else 1) + count_words_from true s'
  end.

Definition count_words (s : string) : nat := count_words_from false s.

(** [str(n)] for a non-negative integer. *)
Definition of_nat (n : nat) : string := NilEmpty.string_of_uint (Nat.to_uint n).

End PyStr.

(** ** The fragment of [re] the program uses

    Every pattern of the program is a sequence of single characters,
    character classes, repetitions of one class and word boundaries; there
    is no alternation and no repetition of a group.  A match reports the
    text consumed by each item (so that a group is read back by position)
    and the text left after the match. *)

Module Re.
Import PyStr.

Inductive cclass : Type :=
| CChar (c : ascii)            (* a literal character *)
| CSpace                       (* \s *)
| CWord                        (* \w *)
| CAny                         (* . *)
| CSet (cs : list ascii)       (* [...] *)
| CNotSet (cs : list ascii).   (* [^...] *)

Inductive item : Type :=
| One (c : cclass)
| Star (c : cclass)            (* c*  greedy *)
| Plus (c : cclass)            (* c+  greedy *)
| StarLazy (c : cclass)        (* c*? *)
| WordB.                       (* \b *)

Record flags : Type := { ignorecase : bool; dotall : bool }.

Definition NOFLAGS : flags := {| ignorecase := false; dotall := false |}.
Definition IGNORECASE : flags := {| ignorecase := true; dotall := false |}.
Definition DOTALL : flags := {| ignorecase := false; dotall := true |}.

Fixpoint chars (s : string) : list ascii :=
  match s with
  | EmptyString => []
  | String c s' => c :: chars s'
  end.

(** The pattern that matches the text [s] literally. *)
Definition lit (s : string) : list item := map (fun c => One (CChar c)) (chars s).

Definition char_eq (fl : flags) (c ch : ascii) : bool :=
  if ignorecase fl then Ascii.eqb (lower_char c) (lower_char ch)
  else Ascii.eqb c ch.

Definition char_in (fl : flags) (cl : cclass) (ch : ascii) : bool :=
  match cl with
  | CChar c => char_eq fl c ch
  | CSpace => isspace ch
  | CWord => isword ch
  | CAny => dotall fl || negb (Ascii.eqb ch NL)
  | CSet cs => existsb (fun c => char_eq fl c ch) cs
  | CNotSet cs => negb (existsb (fun c => char_eq fl c ch) cs)
  end.

Definition word_before (prev : option ascii) : bool :=
  match prev with Some c => isword c | None => false end.

Definition word_at (s : string) : bool :=
  match s with String c _ => isword c | EmptyString => false end.

Definition Cont : Type := option ascii -> string -> option (list string * string).

Section Matcher.
Variable fl : flags.

Definition stop (k : Cont) (prev : option ascii) (s : string)
  : option (string * list string * string) :=
  match k prev s with
  | Some (ps, r) => Some (EmptyString, ps, r)
  | None => None
  end.

Definition more (ch : ascii) (m : option (string * list string * string))
  : option (string * list string * string) :=
  match m with
  | Some (piece, ps, r) => Some (String ch piece, ps, r)
  | None => None
  end.

(** Greedy repetition: take as many characters as possible, give back
    one at a time while the rest of the pattern fails. *)
Fixpoint rep_greedy (c : cclass) (k : Cont) (prev : option ascii) (s : string)
  : option (string * list string * string) :=
  match s with
  | String ch s' =>
      if char_in fl c ch then
        match rep_greedy c k (Some ch) s' with
        | Some m => more ch (Some m)
        | None => stop k prev s
        end
      else stop k prev s
  | EmptyString => stop k prev s
  end.

(** Lazy repetition: try the rest of the pattern first. *)
Fixpoint rep_lazy (c : cclass) (k : Cont) (prev : option ascii) (s : string)
  : option (string * list string * string) :=
  match stop k prev s with
  | Some m => Some m
  | None =>
      match s with
      | String ch s' =>
          if char_in fl c ch then more ch (rep_lazy c k (Some ch) s') else None
      | EmptyString => None
      end
  end.

Definition glue (m : option (string * list string * string))
  : option (list string * string) :=
  match m with
  | Some (piece, ps, r) => Some (piece :: ps, r)
  | None => None
  end.

(** Match the pattern at the start of [s]; [prev] is the character
    before [s] in the searched text, if any. *)
Fixpoint match_here (p : list item) : Cont :=
  match p with
  | [] => fun _ s => Some ([], s)
  | it :: p' =>
      let k := match_here p' in
      fun prev s =>
        match it with
        | One c =>
            match s with
            | String ch s' =>
                if char_in fl c ch then glue (more ch (stop k (Some ch) s')) else None
            | EmptyString => None
            end
        | Star c => glue (rep_greedy c k prev s)
        | Plus c =>
            match s with
            | String ch s' =>
                if char_in fl c ch then glue (more ch (rep_greedy c k (Some ch) s'))
                else None
            | EmptyString => None
            end
        | StarLazy c => glue (rep_lazy c k prev s)
        | WordB =>
            if xorb (word_before prev) (word_at s) then glue (stop k prev s)
            else None
        end
  end.

Fixpoint search_from (p : list item) (prev : option ascii) (s : string)
  : option (list string * string) :=
  match match_here p prev s with
  | Some r => Some r
  | None =>
      match s with
      | String ch s' => search_from p (Some ch) s'
      | EmptyString => None
      end
  end.

(** [re.match(p, s)] *)
Definition re_match (p : list item) (s : string) : option (list string * string) :=
  match_here p None s.

(** [re.search(p, s)] *)
Definition re_search (p : list item) (s : string) : option (list string * string) :=
  search_from p None s.

(** [len(re.findall(p, s))]: matches are taken leftmost first and do
    not overlap; [skip] counts the characters still inside the last
    match.  No pattern the program counts with matches the empty text. *)
Fixpoint findall_from (p : list item) (prev : option ascii) (skip : nat) (s : string)
  : nat :=
  match skip with
  | S skip' =>
      match s with
      | String ch s' => findall_from p (Some ch) skip' s'
      | EmptyString => 0
      end
  | O =>
      match match_here p prev s with
      | Some (_, r) =>
          match s with
          | String ch s' =>
              S (findall_from p (Some ch) (String.length s - String.length r - 1) s')
          | EmptyString => 1
          end
      | None =>
          match s with
          | String ch s' => findall_from p (Some ch) 0 s'
          | EmptyString => 0
          end
      end
  end.

Definition findall_count (p : list item) (s : string) : nat :=
  findall_from p None 0 s.

End Matcher.

(** Truth value of a match object. *)
Definition found {A : Type} (m : option A) : bool :=
  match m with Some _ => true | None => false end.

(** [any(re.search(p, s, flags) for p in ps)], as the loops that return
    [True] at the first hit. *)
Definition search_any (fl : flags) (ps : list (list item)) (s : string) : bool :=
  existsb (fun p => found (re_search fl p s)) ps.

End Re.

(** ** Data model *)

Inductive QualityStandard : Type :=
| EXCELLENT | GOOD | ACCEPTABLE | NEEDS_IMPROVEMENT | UNACCEPTABLE.

Inductive WorkType : Type :=
| CODE | DOCUMENTATION | TESTS | ARCHITECTURE
| DESIGN | DEPLOYMENT | SECURITY | PERFORMANCE.

Definition WorkType_eqb (a b : WorkType) : bool :=
  match a, b with
  | CODE, CODE | DOCUMENTATION, DOCUMENTATION | TESTS, TESTS
  | ARCHITECTURE, ARCHITECTURE | DESIGN, DESIGN | DEPLOYMENT, DEPLOYMENT
  | SECURITY, SECURITY | PERFORMANCE, PERFORMANCE => true
  | _, _ => false
  end.

Definition Qlt_bool (x y : Q) : bool := negb (Qle_bool y x).

(** [max(0, x)] and [min(10, x)] as Python evaluates them: the first
    argument is kept unless the second is strictly better. *)
Definition max0 (x : Q) : Q := if Qlt_bool 0 x then x else 0%Q.
Definition min10 (x : Q) : Q := if Qlt_bool x 10 then x else 10%Q.

(** An [int] used as a float. *)
Definition QofN (n : nat) : Q := inject_Z (Z.of_nat n).

Record QualityMetrics : Type := {
  code_quality : Q;
  test_coverage : Q;
  documentation_completeness : Q;
  security_score : Q;
  performance_score : Q;
  architecture_compliance : Q;
  overall_score : Q
}.

(** The dataclass defaults. *)
Definition QualityMetrics_default : QualityMetrics :=
  {| code_quality := 0.0; test_coverage := 0.0; documentation_completeness := 0.0;
     security_score := 0.0; performance_score := 0.0; architecture_compliance := 0.0;
     overall_score := 0.0 |}.

Definition sub_scores (m : QualityMetrics) : list Q :=
  [code_quality m; test_coverage m; documentation_completeness m;
   security_score m; performance_score m; architecture_compliance m].

(** [sum(xs)]: from 0, left to right. *)
Definition pysum (xs : list Q) : Q := fold_left Qplus xs 0%Q.

(** [QualityMetrics.calculate_overall_score] *)
Definition calculate_overall_score (m : QualityMetrics) : QualityMetrics :=
  let metrics := sub_scores m in
  {| code_quality := code_quality m; test_coverage := test_coverage m;
     documentation_completeness := documentation_completeness m;
     security_score := security_score m; performance_score := performance_score m;
     architecture_compliance := architecture_compliance m;
     overall_score := (pysum metrics / QofN (length metrics))%Q |}.

Record QualityIssue : Type := {
  issue_type : string;
  severity : string;
  description : string;
  issue_file_path : option string;
  line_number : option Z;
  suggested_fix : option string;
  auto_fixable : bool;
  agent_responsible : option string
}.

(** The constructor call [QualityIssue(issue_type=..., severity=..., ...)]
    with the keyword arguments the program passes. *)
Definition mkIssue (ty sev descr : string) (path : option string) (fix_text : string)
    (fixable : bool) : QualityIssue :=
  {| issue_type := ty; severity := sev; description := descr;
     issue_file_path := path; line_number := None;
     suggested_fix := Some fix_text; auto_fixable := fixable;
     agent_responsible := None |}.

Record WorkItem : Type := {
  id : string;
  work_type : WorkType;
  file_path : string;
  agent_name : string;
  project_name : string;
  content : string;
  requirements : list string;
  quality_metrics : QualityMetrics;
  issues : list QualityIssue;
  status : string;
  revision_count : Z;
  max_revisions : Z
}.

(** [WorkItem(id=..., work_type=..., file_path=..., agent_name=...,
    project_name=..., content=..., requirements=...)]: the other fields
    take their defaults. *)
Definition new_WorkItem (i : string) (wt : WorkType) (path agent project text : string)
    (reqs : list string) : WorkItem :=
  {| id := i; work_type := wt; file_path := path; agent_name := agent;
     project_name := project; content := text; requirements := reqs;
     quality_metrics := QualityMetrics_default; issues := [];
     status := "pending"; revision_count := 0; max_revisions := 3 |}.

Definition set_quality_metrics (w : WorkItem) (m : QualityMetrics) : WorkItem :=
  {| id := id w; work_type := work_type w; file_path := file_path w;
     agent_name := agent_name w; project_name := project_name w;
     content := content w; requirements := requirements w;
     quality_metrics := m; issues := issues w; status := status w;
     revision_count := revision_count w; max_revisions := max_revisions w |}.

Definition set_issues (w : WorkItem) (l : list QualityIssue) : WorkItem :=
  {| id := id w; work_type := work_type w; file_path := file_path w;
     agent_name := agent_name w; project_name := project_name w;
     content := content w; requirements := requirements w;
     quality_metrics := quality_metrics w; issues := l; status := status w;
     revision_count := revision_count w; max_revisions := max_revisions w |}.

Definition set_status (w : WorkItem) (s : string) : WorkItem :=
  {| id := id w; work_type := work_type w; file_path := file_path w;
     agent_name := agent_name w; project_name := project_name w;
     content := content w; requirements := requirements w;
     quality_metrics := quality_metrics w; issues := issues w; status := s;
     revision_count := revision_count w; max_revisions := max_revisions w |}.

Definition set_content (w : WorkItem) (s : string) : WorkItem :=
  {| id := id w; work_type := work_type w; file_path := file_path w;
     agent_name := agent_name w; project_name := project_name w;
     content := s; requirements := requirements w;
     quality_metrics := quality_metrics w; issues := issues w; status := status w;
     revision_count := revision_count w; max_revisions := max_revisions w |}.

Definition set_revision_count (w : WorkItem) (n : Z) : WorkItem :=
  {| id := id w; work_type := work_type w; file_path := file_path w;
     agent_name := agent_name w; project_name := project_name w;
     content := content w; requirements := requirements w;
     quality_metrics := quality_metrics w; issues := issues w; status := status w;
     revision_count := n; max_revisions := max_revisions w |}.

Definition set_code_quality (m : QualityMetrics) (x : Q) : QualityMetrics :=
  {| code_quality := x; test_coverage := test_coverage m;
     documentation_completeness := documentation_completeness m;
     security_score := security_score m; performance_score := performance_score m;
     architecture_compliance := architecture_compliance m;
     overall_score := overall_score m |}.

Definition set_test_coverage (m : QualityMetrics) (x : Q) : QualityMetrics :=
  {| code_quality := code_quality m; test_coverage := x;
     documentation_completeness := documentation_completeness m;
     security_score := security_score m; performance_score := performance_score m;
     architecture_compliance := architecture_compliance m;
     overall_score := overall_score m |}.

Definition set_documentation_completeness (m : QualityMetrics) (x : Q) : QualityMetrics :=
  {| code_quality := code_quality m; test_coverage := test_coverage m;
     documentation_completeness := x;
     security_score := security_score m; performance_score := performance_score m;
     architecture_compliance := architecture_compliance m;
     overall_score := overall_score m |}.

Definition set_security_score (m : QualityMetrics) (x : Q) : QualityMetrics :=
  {| code_quality := code_quality m; test_coverage := test_coverage m;
     documentation_completeness := documentation_completeness m;
     security_score := x; performance_score := performance_score m;
     architecture_compliance := architecture_compliance m;
     overall_score := overall_score m |}.

Definition set_performance_score (m : QualityMetrics) (x : Q) : QualityMetrics :=
  {| code_quality := code_quality m; test_coverage := test_coverage m;
     documentation_completeness := documentation_completeness m;
     security_score := security_score m; performance_score := x;
     architecture_compliance := architecture_compliance m;
     overall_score := overall_score m |}.

Definition set_architecture_compliance (m : QualityMetrics) (x : Q) : QualityMetrics :=
  {| code_quality := code_quality m; test_coverage := test_coverage m;
     documentation_completeness := documentation_completeness m;
     security_score := security_score m; performance_score := performance_score m;
     architecture_compliance := x;
     overall_score := overall_score m |}.

(** ** Exceptions and what the Python runtime supplies *)

Inductive exn : Type :=
| NameError (name : string).

Inductive result (A : Type) : Type :=
| Ok (a : A)
| Raise (e : exn).

Arguments Ok {A} a.
Arguments Raise {A} e.

(** What the methods take from outside their own text.
    - [global_work_item]: the object bound to the name [work_item] in the
      module's global namespace, if there is one.  A method that uses the
      name without having it as a parameter or local looks it up there.
    - [float_format spec x]: the text of the float [x] in an f-string,
      [spec] being empty for [{x}] and [".2f"] for [{x:.2f}].
    - [file_writable path]: whether [open(path, 'w')] and the write
      succeed. *)
Record Runtime : Type := {
  global_work_item : option WorkItem;
  float_format : string -> Q -> string;
  file_writable : string -> bool
}.

(** The module as it is written binds no global [work_item]: its top level
    defines only the logger, the classes and [main]. *)
Definition module_runtime (ff : string -> Q -> string) (fw : string -> bool) : Runtime :=
  {| global_work_item := None; float_format := ff; file_writable := fw |}.

(** ** [class QualityReviewEngine] *)

Module QualityReviewEngine.
Import PyStr Re.

(** The entries of [self.quality_standards] that the methods read. *)
Definition max_complexity : nat := 10.
Definition required_sections : list string := ["overview"; "usage"; "examples"].
Definition max_readability_score : Q := 8.0.
Definition tests_min_coverage : Q := 0.9.
Definition required_types : list string := ["unit"; "integration"].
Definition required_patterns : list string :=
  ["separation_of_concerns"; "single_responsibility"].

(** [name\s*\(] *)
Definition call_of (name : string) : list item := lit name ++ [Star CSpace] ++ lit "(".

(** [_has_error_handling] *)
Definition error_patterns : list (list item) :=
  [ lit "try" ++ [Star CSpace] ++ lit ":";
    lit "except" ++ [Plus CSpace; Plus CWord];
    call_of "catch";
    lit "throw" ++ [Plus CSpace];
    lit "raise" ++ [Plus CSpace];
    call_of "error";
    call_of "Error" ].

Definition _has_error_handling (content : string) : bool :=
  search_any IGNORECASE error_patterns content.

(** [_has_logging] *)
Definition logging_patterns : list (list item) :=
  [ lit "logger."; lit "log."; lit "console.log"; call_of "print";
    lit "logging."; call_of "log" ].

Definition _has_logging (content : string) : bool :=
  search_any IGNORECASE logging_patterns content.

Definition triple (q : ascii) : list item := [One (CChar q); One (CChar q); One (CChar q)].

(** [_has_documentation] *)
Definition doc_patterns : list (list item) :=
  [ triple DQUOTE ++ [StarLazy CAny] ++ triple DQUOTE;
    triple SQUOTE ++ [StarLazy CAny] ++ triple SQUOTE;
    lit "/**" ++ [StarLazy CAny] ++ lit "*/";
    lit "//" ++ [Star CAny];
    lit "#" ++ [Star CAny] ].

Definition _has_documentation (content : string) : bool :=
  search_any DOTALL doc_patterns content.

(** [\bword\b] *)
Definition whole_word (w : string) : list item := [WordB] ++ lit w ++ [WordB].

(** [_calculate_complexity] *)
Definition complexity_patterns : list (list item) :=
  [ whole_word "if"; whole_word "else"; whole_word "elif"; whole_word "while";
    whole_word "for"; whole_word "try"; whole_word "except"; whole_word "case";
    whole_word "switch";
    [WordB] ++ lit "?" ++ [Star CSpace; Star CAny; Star CSpace] ++ lit ":" ++ [Star CSpace];
    whole_word "and"; whole_word "or"; lit "||"; lit "&&" ].

Definition _calculate_complexity (content : string) : nat :=
  fold_left (fun complexity p => complexity + findall_count IGNORECASE p content)
            complexity_patterns 1.

Definition quotes : cclass := CSet [DQUOTE; SQUOTE].

(** [name\s*=\s*["\'].*["\']] *)
Definition quoted_assignment (name : string) : list item :=
  lit name ++ [Star CSpace] ++ lit "=" ++ [Star CSpace; One quotes; Star CAny; One quotes].

Definition security_patterns : list (list item * string * string) :=
  [ (call_of "eval", "dangerous_eval", "Use of eval() function is dangerous");
    (call_of "exec", "dangerous_exec", "Use of exec() function is dangerous");
    (call_of "input", "dangerous_input", "Direct user input without validation");
    (lit "pickle.loads", "dangerous_pickle", "Pickle deserialization is dangerous");
    (lit "shell=True", "dangerous_shell", "Shell injection vulnerability");
    (lit "subprocess." ++ [Plus CWord; Star CAny] ++ lit "shell=True",
     "dangerous_subprocess", "Subprocess with shell=True is dangerous");
    (quoted_assignment "password", "hardcoded_password", "Hardcoded password detected");
    (quoted_assignment "api_key", "hardcoded_api_key", "Hardcoded API key detected");
    (quoted_assignment "secret", "hardcoded_secret", "Hardcoded secret detected") ].

(** [_check_security_issues] *)
Definition _check_security_issues (content : string) : list QualityIssue :=
  flat_map
    (fun '(pattern, ty, descr) =>
       if found (re_search IGNORECASE pattern content)
       then [ {| issue_type := ty; severity := "critical"; description := descr;
                 issue_file_path := None; line_number := None;
                 suggested_fix :=
                   Some ("Remove or properly secure " +:+ replace_char "_" " " ty);
                 auto_fixable := false; agent_responsible := None |} ]
       else [])
    security_patterns.

(** [_has_section].  Its first pattern is the raw f-string
    [rf'#{1,6}\s*{section}']: in an f-string [{1,6}] is a replacement
    field holding the tuple [(1, 6)], so the text handed to [re] is
    [#(1, 6)\s*] followed by the section name, in which [(1, 6)] is a
    group that matches the five characters [1, 6].  The section names the
    program passes are plain words, which stand for themselves in a
    pattern. *)
Definition section_patterns (section : string) : list (list item) :=
  [ lit "#" ++ lit "1, 6" ++ [Star CSpace] ++ lit section;
    lit "## " ++ lit section;
    lit section ++ lit ":";
    lit section ++ [One (CChar NL); Plus (CSet ["="%char; "-"%char])] ].

Definition _has_section (content section : string) : bool :=
  search_any IGNORECASE (section_patterns section) content.

(** [_count_syllables] *)
Definition vowels : string := "aeiouy".

Fixpoint count_vowel_groups (prev_was_vowel : bool) (text : string) : nat :=
  match text with
  | EmptyString => 0
  | String char text' =>
      if contains (String char EmptyString) vowels
      then (if prev_was_vowel then 0 else 1) + count_vowel_groups true text'
      else count_vowel_groups false text'
  end.

Definition _count_syllables (text : string) : nat :=
  Nat.max 1 (count_vowel_groups false (lower text)).

(** [_calculate_readability] *)
Definition _calculate_readability (content : string) : Q :=
  let sentences := findall_count NOFLAGS [Plus (CSet ["."%char; "!"%char; "?"%char])] content in
  let words := count_words content in
  let syllables := _count_syllables content in
  if (sentences =? 0) || (words =? 0) then 0.0%Q
  else
    let avg_sentence_length := (QofN words / QofN sentences)%Q in
    let avg_syllables_per_word := (QofN syllables / QofN words)%Q in
    let readability :=
      (206.835 - (1.015 * avg_sentence_length) - (84.6 * avg_syllables_per_word))%Q in
    max0 (min10 ((100 - readability) / 10)%Q).

(** [_has_test_type] *)
Definition test_patterns (test_type : string) : list (list item) :=
  if String.eqb test_type "unit" then
    [ lit "test_" ++ [Plus CWord]; lit "unittest"; call_of "describe"; call_of "it" ]
  else if String.eqb test_type "integration" then
    [ lit "integration" ++ [Star CAny] ++ lit "test";
      lit "test" ++ [Star CAny] ++ lit "integration";
      lit "e2e" ++ [Star CAny] ++ lit "test" ]
  else if String.eqb test_type "performance" then
    [ lit "performance" ++ [Star CAny] ++ lit "test";
      lit "benchmark";
      lit "load" ++ [Star CAny] ++ lit "test" ]
  else if String.eqb test_type "security" then
    [ lit "security" ++ [Star CAny] ++ lit "test";
      lit "test" ++ [Star CAny] ++ lit "security";
      lit "vulnerability" ++ [Star CAny] ++ lit "test" ]
  else [].

Definition _has_test_type (content test_type : string) : bool :=
  search_any IGNORECASE (test_patterns test_type) content.

(** [_calculate_test_coverage] *)
Definition _calculate_test_coverage (path : string) : Q :=
  if contains "test" (lower path) then 0.9%Q else 0.7%Q.

(** [_check_separation_of_concerns] *)
Definition concerns : list string := ["database"; "ui"; "business"; "validation"; "logging"].

Definition _check_separation_of_concerns (content : string) : bool :=
  let found_concerns :=
    List.filter (fun concern => found (re_search IGNORECASE (lit concern) content))
                concerns in
  length found_concerns <=? 2.

(** [_check_single_responsibility] *)
Definition _check_single_responsibility (content : string) : bool :=
  let class_methods := findall_count NOFLAGS (lit "def" ++ [Plus CSpace; Plus CWord]) content in
  class_methods <=? 10.

(** [name\s*\([^)]+\)] *)
Definition with_arguments (name : string) : list item :=
  call_of name ++ [Plus (CNotSet [")"%char])] ++ lit ")".

(** [_check_dependency_injection] *)
Definition injection_patterns : list (list item) :=
  [ with_arguments "__init__"; with_arguments "constructor"; lit "@inject";
    lit "dependencies" ++ [Star CSpace] ++ lit "=" ].

Definition _check_dependency_injection (content : string) : bool :=
  search_any IGNORECASE injection_patterns content.

(** [_check_factory_pattern] *)
Definition factory_patterns : list (list item) :=
  [ lit "class" ++ [Plus CSpace; Plus CWord] ++ lit "Factory";
    lit "def" ++ [Plus CSpace] ++ lit "create_" ++ [Plus CWord];
    call_of "factory"; call_of "Factory" ].

Definition _check_factory_pattern (content : string) : bool :=
  search_any IGNORECASE factory_patterns content.

(** [_follows_pattern]: a pattern without a checker is taken as followed. *)
Definition _follows_pattern (content pattern : string) : bool :=
  if String.eqb pattern "separation_of_concerns" then _check_separation_of_concerns content
  else if String.eqb pattern "single_responsibility" then _check_single_responsibility content
  else if String.eqb pattern "dependency_injection" then _check_dependency_injection content
  else if String.eqb pattern "factory_pattern" then _check_factory_pattern content
  else true.

(** [_review_code_quality] *)
Definition _review_code_quality (work_item : WorkItem) : list QualityIssue :=
  let content := content work_item in
  let path := Some (file_path work_item) in
  let complexity := _calculate_complexity content in
  (if negb (_has_error_handling content)
   then [mkIssue "missing_error_handling" "high" "Code lacks proper error handling"
                 path "Add try-catch blocks and proper error handling" true]
   else [])
  ++ (if negb (_has_logging content)
      then [mkIssue "missing_logging" "medium" "Code lacks proper logging"
                    path "Add logging statements for debugging and monitoring" true]
      else [])
  ++ (if negb (_has_documentation content)
      then [mkIssue "missing_documentation" "medium" "Code lacks proper documentation"
                    path "Add docstrings and comments" true]
      else [])
  ++ (if max_complexity <? complexity
      then [mkIssue "high_complexity" "high"
                    ("Code complexity (" +:+ of_nat complexity +:+ ") exceeds maximum (10)")
                    path "Refactor code to reduce complexity" false]
      else [])
  ++ _check_security_issues content.

(** [_review_documentation] *)
Definition _review_documentation (rt : Runtime) (work_item : WorkItem) : list QualityIssue :=
  let content := content work_item in
  let path := Some (file_path work_item) in
  let readability_score := _calculate_readability content in
  flat_map
    (fun section =>
       if negb (_has_section content section)
       then [mkIssue "missing_section" "medium"
                     ("Documentation missing required section: " +:+ section)
                     path ("Add " +:+ section +:+ " section to documentation") true]
       else [])
    required_sections
  ++ (if Qlt_bool max_readability_score readability_score
      then [mkIssue "poor_readability" "medium"
                    ("Documentation readability score ("
                     +:+ float_format rt EmptyString readability_score
                     +:+ ") exceeds maximum")
                    path "Simplify language and improve structure" false]
      else []).

(** [_review_tests] *)
Definition _review_tests (rt : Runtime) (work_item : WorkItem) : list QualityIssue :=
  let content := content work_item in
  let path := Some (file_path work_item) in
  let coverage := _calculate_test_coverage (file_path work_item) in
  flat_map
    (fun test_type =>
       if negb (_has_test_type content test_type)
       then [mkIssue "missing_test_type" "high"
                     ("Missing " +:+ test_type +:+ " tests")
                     path ("Add " +:+ test_type +:+ " tests") true]
       else [])
    required_types
  ++ (if Qlt_bool coverage tests_min_coverage
      then [mkIssue "low_test_coverage" "high"
                    ("Test coverage (" +:+ float_format rt ".2f" coverage
                     +:+ ") below minimum")
                    path "Add more test cases to improve coverage" false]
      else []).

(** [_review_architecture] *)
Definition _review_architecture (work_item : WorkItem) : list QualityIssue :=
  let content := content work_item in
  let path := Some (file_path work_item) in
  flat_map
    (fun pattern =>
       if negb (_follows_pattern content pattern)
       then [mkIssue "missing_pattern" "medium"
                     ("Code doesn't follow " +:+ pattern +:+ " pattern")
                     path ("Refactor to follow " +:+ pattern +:+ " pattern") false]
       else [])
    required_patterns.

(** [_calculate_code_quality_score] *)
Definition _calculate_code_quality_score (content : string) : Q :=
  let score := 1.0%Q in
  let score := if negb (_has_error_handling content) then (score - 0.2)%Q else score in
  let score := if negb (_has_logging content) then (score - 0.1)%Q else score in
  let score := if negb (_has_documentation content) then (score - 0.1)%Q else score in
  let complexity := _calculate_complexity content in
  let score :=
    if 10 <? complexity then (score - 0.3)%Q
    else if 5 <? complexity then (score - 0.1)%Q
    else score in
  max0 score.

(** [_calculate_documentation_completeness].  The method has the
    parameters [self] and [content] only; its first statement reads
    [work_item.work_type], and [work_item] is a free name there, looked
    up in the module globals when the method runs. *)
Definition _calculate_documentation_completeness (rt : Runtime) (content : string)
  : result Q :=
  match global_work_item rt with
  | None => Raise (NameError "work_item")
  | Some work_item =>
      if negb (WorkType_eqb (work_type work_item) DOCUMENTATION) then Ok 0.8%Q
      else
        let required_sections :=
          ["overview"; "usage"; "examples"; "installation"; "configuration"] in
        let found_sections :=
          length (List.filter (fun section => _has_section content section)
                              required_sections) in
        Ok (QofN found_sections / QofN (length required_sections))%Q
  end.

(** [_calculate_performance_score] *)
Definition performance_issues : list (list item) :=
  [ lit "while" ++ [Plus CSpace] ++ lit "True" ++ [Star CSpace] ++ lit ":";
    lit "for" ++ [Plus CSpace; Star CAny; Plus CSpace] ++ lit "in" ++ [Plus CSpace]
      ++ call_of "range" ++ [Star CSpace] ++ lit "10000";
    lit "time.sleep" ++ [Star CSpace] ++ lit "(" ++ [Star CSpace]
      ++ [One (CSet (chars "123456789"))];
    lit "recursive" ++ [Star CAny] ++ lit "factorial" ].

Definition _calculate_performance_score (content : string) : Q :=
  max0 (fold_left
          (fun score pattern =>
             if found (re_search IGNORECASE pattern content) then (score - 0.2)%Q else score)
          performance_issues 1.0%Q).

(** [_calculate_architecture_compliance] *)
Definition _calculate_architecture_compliance (content : string) : Q :=
  max0 (fold_left
          (fun score pattern =>
             if negb (_follows_pattern content pattern) then (score - 0.2)%Q else score)
          ["separation_of_concerns"; "single_responsibility"] 1.0%Q).

(** [_calculate_quality_metrics].  The sub-scores are stored into the
    item's metrics one after the other; an exception leaves the item
    with what had been stored by then. *)
Definition _calculate_quality_metrics (rt : Runtime) (work_item : WorkItem)
  : result unit * WorkItem :=
  let content := content work_item in
  let m := quality_metrics work_item in
  let m := set_code_quality m (_calculate_code_quality_score content) in
  let m := set_test_coverage m (_calculate_test_coverage (file_path work_item)) in
  match _calculate_documentation_completeness rt content with
  | Raise e => (Raise e, set_quality_metrics work_item m)
  | Ok completeness =>
      let m := set_documentation_completeness m completeness in
      let security_issues := _check_security_issues content in
      let m := set_security_score m (max0 (1.0 - (QofN (length security_issues) * 0.2))%Q) in
      let m := set_performance_score m (_calculate_performance_score content) in
      let m := set_architecture_compliance m (_calculate_architecture_compliance content) in
      (Ok tt, set_quality_metrics work_item (calculate_overall_score m))
  end.

Definition is_critical (i : QualityIssue) : bool := String.eqb (severity i) "critical".

(** [_determine_quality_standard]: it reads the score and the issue list
    stored in the work item. *)
Definition _determine_quality_standard (work_item : WorkItem) : QualityStandard :=
  let overall_score := overall_score (quality_metrics work_item) in
  let critical_issues := length (List.filter is_critical (issues work_item)) in
  if 0 <? critical_issues then UNACCEPTABLE
  else if Qle_bool 0.9 overall_score then EXCELLENT
  else if Qle_bool 0.8 overall_score then GOOD
  else if Qle_bool 0.7 overall_score then ACCEPTABLE
  else if Qle_bool 0.6 overall_score then NEEDS_IMPROVEMENT
  else UNACCEPTABLE.

(** The reviewer chosen by the work type; the other work types have none. *)
Definition run_reviewer (rt : Runtime) (work_item : WorkItem) : list QualityIssue :=
  match work_type work_item with
  | CODE => _review_code_quality work_item
  | DOCUMENTATION => _review_documentation rt work_item
  | TESTS => _review_tests rt work_item
  | ARCHITECTURE => _review_architecture work_item
  | _ => []
  end.

(** [review_work_item]: the issues found are collected in a local list
    and returned; storing them into the item is left to the caller. *)
Definition review_work_item (rt : Runtime) (work_item : WorkItem)
  : result (QualityStandard * list QualityIssue) * WorkItem :=
  let issues := run_reviewer rt work_item in
  match _calculate_quality_metrics rt work_item with
  | (Raise e, work_item) => (Raise e, work_item)
  | (Ok _, work_item) =>
      let quality_standard := _determine_quality_standard work_item in
      (Ok (quality_standard, issues), work_item)
  end.

End QualityReviewEngine.

(** ** What the orchestrator does to the outside, and the calls the
    properties below speak about

    Each event is recorded where the program makes the call, with the work
    item as it is at that moment. *)

Inductive Event : Type :=
| ReviewPass (work_item : WorkItem)
    (* quality_engine.review_work_item(work_item) *)
| TransformerCalled (issue : QualityIssue) (content : string)
    (* fix_function(work_item.content, issue) for a registered transformer *)
| ContentWritten (path content : string)
    (* the auto-fixed content written back to the file *)
| RevisionNotice (work_item : WorkItem) (min_overall_score : Q)
    (* _notify_agent_for_revision(work_item, revision_instructions) *)
| Escalation (work_item : WorkItem)
    (* _escalate_to_ceo(work_item): the report is stored and put on the CEO dashboard *)
| ReviewStored (work_item : WorkItem).
    (* _store_review_results(work_item) *)

Definition is_ReviewPass (e : Event) : bool :=
  match e with ReviewPass _ => true | _ => false end.
Definition is_TransformerCalled (e : Event) : bool :=
  match e with TransformerCalled _ _ => true | _ => false end.
Definition is_Escalation (e : Event) : bool :=
  match e with Escalation _ => true | _ => false end.

Definition count_events (p : Event -> bool) (evs : list Event) : nat :=
  length (List.filter p evs).

(** ** [class AutoFixEngine] *)

Module AutoFixEngine.
Import PyStr Re.

(** [re.match(r'\s*def\s+', line)] *)
Definition is_def_line (line : string) : bool :=
  found (re_match NOFLAGS ([Star CSpace] ++ lit "def" ++ [Plus CSpace]) line).

(** [len(line) - len(line.lstrip())] *)
Definition indent_of (line : string) : nat :=
  String.length line - String.length (lstrip line).

(** The loop of [_fix_missing_error_handling] over the lines, with its
    two loop variables. *)
Fixpoint wrap_first_statements (in_function : bool) (indent_level : nat)
    (lines : list string) : list string :=
  match lines with
  | [] => []
  | line :: lines' =>
      if is_def_line line then
        line :: wrap_first_statements true (indent_of line) lines'
      else if in_function && truthy (strip line)
              && negb (startswith line (spaces (indent_level + 4))) then
        line :: wrap_first_statements false indent_level lines'
      else if in_function && truthy (strip line)
              && negb (startswith (strip line) "try:") then
        [ spaces (indent_level + 4) +:+ "try:";
          spaces (indent_level + 8) +:+ lstrip line;
          spaces (indent_level + 4) +:+ "except Exception as e:";
          spaces (indent_level + 8) +:+ "logger.error(f"
            +:+ String DQUOTE "Error: {e}" +:+ String DQUOTE ")";
          spaces (indent_level + 8) +:+ "raise" ]
        ++ wrap_first_statements false indent_level lines'
      else line :: wrap_first_statements in_function indent_level lines'
  end.

(** [_fix_missing_error_handling] *)
Definition _fix_missing_error_handling (content : string) (issue : QualityIssue) : string :=
  if contains "def " content
  then join_nl (wrap_first_statements false 0 (split_nl content))
  else content.

Definition is_import_line (line : string) : bool :=
  startswith line "import " || startswith line "from ".

(** [_fix_missing_logging] *)
Definition _fix_missing_logging (content : string) (issue : QualityIssue) : string :=
  if negb (contains "import logging" content) then
    let lines := split_nl content in
    let import_section := List.filter is_import_line lines in
    let other_lines := List.filter (fun line => negb (is_import_line line)) lines in
    let import_section :=
      import_section ++ ["import logging"; "logger = logging.getLogger(__name__)"] in
    join_nl (import_section ++ [EmptyString] ++ other_lines)
  else content.

Definition docstring_quotes : string := String DQUOTE (String DQUOTE (String DQUOTE EmptyString)).

(** The lines [_fix_missing_documentation] puts out for one input line. *)
Definition with_docstring (line : string) : list string :=
  if is_def_line line then
    let indent := indent_of line in
    [ line;
      spaces (indent + 4) +:+ docstring_quotes;
      spaces (indent + 4) +:+ "TODO: Add function description";
      spaces (indent + 4) +:+ docstring_quotes ]
  else [line].

(** [_fix_missing_documentation] *)
Definition _fix_missing_documentation (content : string) (issue : QualityIssue) : string :=
  if contains "def " content
  then join_nl (flat_map with_docstring (split_nl content))
  else content.

(** [text] followed by a line break. *)
Definition line (text : string) : string := text +:+ String NL EmptyString.

Definition section_templates (section : string) : option string :=
  if String.eqb section "overview" then
    Some (line "## Overview" +:+ line EmptyString +:+ line "TODO: Add project overview")
  else if String.eqb section "usage" then
    Some (line "## Usage" +:+ line EmptyString +:+ line "TODO: Add usage instructions")
  else if String.eqb section "examples" then
    Some (line "## Examples" +:+ line EmptyString +:+ line "TODO: Add code examples")
  else if String.eqb section "installation" then
    Some (line "## Installation" +:+ line EmptyString
          +:+ line "TODO: Add installation instructions")
  else if String.eqb section "configuration" then
    Some (line "## Configuration" +:+ line EmptyString
          +:+ line "TODO: Add configuration details")
  else None.

(** [re.search(pattern, text).group(1)], the group being the last item
    of [before ++ [group]]. *)
Definition search_group (before : list item) (group : item) (after : list item)
    (text : string) : option string :=
  match re_search NOFLAGS (before ++ [group] ++ after) text with
  | Some (pieces, _) => Some (nth (length before) pieces EmptyString)
  | None => None
  end.

(** The section template appended by [_fix_missing_section], if the
    description names a section: [re.search(r'section:\s+(\w+)', ...)]. *)
Definition section_to_add (issue : QualityIssue) : option string :=
  match search_group (lit "section:" ++ [Plus CSpace]) (Plus CWord) [] (description issue) with
  | Some section =>
      Some (match section_templates section with
            | Some template => template
            | None =>
                line ("## " +:+ title section) +:+ line EmptyString
                +:+ line ("TODO: Add " +:+ section +:+ " content")
            end)
  | None => None
  end.

(** [_fix_missing_section] *)
Definition _fix_missing_section (content : string) (issue : QualityIssue) : string :=
  match section_to_add issue with
  | Some template => content +:+ String NL EmptyString +:+ template
  | None => content
  end.

Definition test_templates (test_type : string) : option string :=
  if String.eqb test_type "unit" then
    Some (line EmptyString +:+ line "def test_unit_example():"
          +:+ line ("    " +:+ docstring_quotes +:+ "Unit test example" +:+ docstring_quotes)
          +:+ line "    # TODO: Add unit test"
          +:+ line "    assert True")
  else if String.eqb test_type "integration" then
    Some (line EmptyString +:+ line "def test_integration_example():"
          +:+ line ("    " +:+ docstring_quotes +:+ "Integration test example"
                    +:+ docstring_quotes)
          +:+ line "    # TODO: Add integration test"
          +:+ line "    assert True")
  else None.

(** The test template appended by [_fix_missing_test_type], if the
    description names a test type:
    [re.search(r'Missing\s+(\w+)\s+tests', ...)]. *)
Definition test_to_add (issue : QualityIssue) : option string :=
  match search_group (lit "Missing" ++ [Plus CSpace]) (Plus CWord)
                     ([Plus CSpace] ++ lit "tests") (description issue) with
  | Some test_type =>
      Some (match test_templates test_type with
            | Some template => template
            | None =>
                line EmptyString
                +:+ line ("def test_" +:+ test_type +:+ "_example():")
                +:+ line ("    " +:+ docstring_quotes +:+ "TODO: Add " +:+ test_type
                          +:+ " test" +:+ docstring_quotes)
                +:+ line "    assert True"
            end)
  | None => None
  end.

(** [_fix_missing_test_type] *)
Definition _fix_missing_test_type (content : string) (issue : QualityIssue) : string :=
  match test_to_add issue with
  | Some template => content +:+ String NL EmptyString +:+ template
  | None => content
  end.

(** [self.fix_patterns]: the registry of transformers by issue type. *)
Definition fix_patterns (ty : string) : option (string -> QualityIssue -> string) :=
  if String.eqb ty "missing_error_handling" then Some _fix_missing_error_handling
  else if String.eqb ty "missing_logging" then Some _fix_missing_logging
  else if String.eqb ty "missing_documentation" then Some _fix_missing_documentation
  else if String.eqb ty "missing_section" then Some _fix_missing_section
  else if String.eqb ty "missing_test_type" then Some _fix_missing_test_type
  else None.

Definition registered : list (string -> QualityIssue -> string) :=
  [ _fix_missing_error_handling; _fix_missing_logging; _fix_missing_documentation;
    _fix_missing_section; _fix_missing_test_type ].

(** [auto_fix_issue] *)
Definition auto_fix_issue (work_item : WorkItem) (issue : QualityIssue)
  : bool * WorkItem * list Event :=
  if negb (auto_fixable issue) then (false, work_item, [])
  else
    match fix_patterns (issue_type issue) with
    | None => (false, work_item, [])
    | Some fix_function =>
        let fixed_content := fix_function (content work_item) issue in
        let called := [TransformerCalled issue (content work_item)] in
        if negb (String.eqb fixed_content (content work_item))
        then (true, set_content work_item fixed_content, called)
        else (false, work_item, called)
    end.

End AutoFixEngine.

(** ** [class CEOQualityControlAgent] *)

(** One entry of [self.agent_performance].  The counters start at 0 and
    are only ever incremented. *)
Module AgentStats.
Record t : Type := {
  total_reviews : nat;
  passed_reviews : nat;
  failed_reviews : nat;
  avg_quality_score : Q;
  revision_rate : Q;
  specialties : list string;
  improvement_areas : list string
}.

(** The entry created at an agent's first review. *)
Definition initial : t :=
  {| total_reviews := 0; passed_reviews := 0; failed_reviews := 0;
     avg_quality_score := 0.0; revision_rate := 0.0;
     specialties := []; improvement_areas := [] |}.
End AgentStats.

(** [self.dashboard_data]; its [project_health] entry is written by the
    periodic sweep only and is left out. *)
Module Dashboard.
Record t : Type := {
  total_reviews : nat;
  passed_reviews : nat;
  failed_reviews : nat;
  auto_fixes : nat;
  agent_scores : gmap string Q
}.

Definition initial : t :=
  {| total_reviews := 0; passed_reviews := 0; failed_reviews := 0;
     auto_fixes := 0; agent_scores := ∅ |}.
End Dashboard.

(** The entries of [self.config["quality_standards"]] read while an item
    is reviewed. *)
Record Config : Type := {
  auto_fix_enabled : bool;
  min_overall_score : Q
}.

Definition default_config : Config :=
  {| auto_fix_enabled := true; min_overall_score := 0.8 |}.

Module CEOQualityControlAgent.
Import PyStr QualityReviewEngine AutoFixEngine.

(** The attributes of the agent that reviewing an item reads or writes.
    [active_reviews] is a dict from item id to the item under review; its
    value is the very object the method holds, so only the keys are
    kept here. *)
Record t : Type := {
  config : Config;
  active_reviews : gset string;
  agent_performance : gmap string AgentStats.t;
  dashboard_data : Dashboard.t
}.

(** [__init__] *)
Definition init (cfg : Config) : t :=
  {| config := cfg; active_reviews := ∅; agent_performance := ∅;
     dashboard_data := Dashboard.initial |}.

Definition set_active_reviews (self : t) (s : gset string) : t :=
  {| config := config self; active_reviews := s;
     agent_performance := agent_performance self;
     dashboard_data := dashboard_data self |}.

Definition set_agent_performance (self : t) (p : gmap string AgentStats.t) : t :=
  {| config := config self; active_reviews := active_reviews self;
     agent_performance := p; dashboard_data := dashboard_data self |}.

Definition set_dashboard_data (self : t) (d : Dashboard.t) : t :=
  {| config := config self; active_reviews := active_reviews self;
     agent_performance := agent_performance self; dashboard_data := d |}.

(** [self.dashboard_data["total_reviews"] += 1] and its siblings. *)
Definition incr_total_reviews (self : t) : t :=
  let d := dashboard_data self in
  set_dashboard_data self
    {| Dashboard.total_reviews := Dashboard.total_reviews d + 1;
       Dashboard.passed_reviews := Dashboard.passed_reviews d;
       Dashboard.failed_reviews := Dashboard.failed_reviews d;
       Dashboard.auto_fixes := Dashboard.auto_fixes d;
       Dashboard.agent_scores := Dashboard.agent_scores d |}.

Definition incr_passed_reviews (self : t) : t :=
  let d := dashboard_data self in
  set_dashboard_data self
    {| Dashboard.total_reviews := Dashboard.total_reviews d;
       Dashboard.passed_reviews := Dashboard.passed_reviews d + 1;
       Dashboard.failed_reviews := Dashboard.failed_reviews d;
       Dashboard.auto_fixes := Dashboard.auto_fixes d;
       Dashboard.agent_scores := Dashboard.agent_scores d |}.

Definition incr_failed_reviews (self : t) : t :=
  let d := dashboard_data self in
  set_dashboard_data self
    {| Dashboard.total_reviews := Dashboard.total_reviews d;
       Dashboard.passed_reviews := Dashboard.passed_reviews d;
       Dashboard.failed_reviews := Dashboard.failed_reviews d + 1;
       Dashboard.auto_fixes := Dashboard.auto_fixes d;
       Dashboard.agent_scores := Dashboard.agent_scores d |}.

Definition incr_auto_fixes (self : t) : t :=
  let d := dashboard_data self in
  set_dashboard_data self
    {| Dashboard.total_reviews := Dashboard.total_reviews d;
       Dashboard.passed_reviews := Dashboard.passed_reviews d;
       Dashboard.failed_reviews := Dashboard.failed_reviews d;
       Dashboard.auto_fixes := Dashboard.auto_fixes d + 1;
       Dashboard.agent_scores := Dashboard.agent_scores d |}.

Definition set_agent_score (self : t) (agent : string) (score : Q) : t :=
  let d := dashboard_data self in
  set_dashboard_data self
    {| Dashboard.total_reviews := Dashboard.total_reviews d;
       Dashboard.passed_reviews := Dashboard.passed_reviews d;
       Dashboard.failed_reviews := Dashboard.failed_reviews d;
       Dashboard.auto_fixes := Dashboard.auto_fixes d;
       Dashboard.agent_scores := <[agent := score]> (Dashboard.agent_scores d) |}.

(** The loop of [_attempt_auto_fixes] over [work_item.issues]. *)
Fixpoint fix_each (self : t) (work_item : WorkItem) (fixed_count : nat)
    (todo : list QualityIssue) : t * WorkItem * nat * list Event :=
  match todo with
  | [] => (self, work_item, fixed_count, [])
  | issue :: todo' =>
      if auto_fixable issue then
        let '(fixed, work_item1, called) := auto_fix_issue work_item issue in
        let '(self2, work_item2, n, evs) :=
          if fixed
          then fix_each (incr_auto_fixes self) work_item1 (fixed_count + 1) todo'
          else fix_each self work_item1 fixed_count todo' in
        (self2, work_item2, n, called ++ evs)
      else fix_each self work_item fixed_count todo'
  end.

(** [_attempt_auto_fixes]: when the file cannot be written the count is
    reset to 0; the item keeps the rewritten content. *)
Definition _attempt_auto_fixes (rt : Runtime) (self : t) (work_item : WorkItem)
  : nat * t * WorkItem * list Event :=
  let '(self, work_item, fixed_count, evs) :=
    fix_each self work_item 0 (issues work_item) in
  if 0 <? fixed_count then
    if file_writable rt (file_path work_item)
    then (fixed_count, self, work_item,
          evs ++ [ContentWritten (file_path work_item) (content work_item)])
    else (0, self, work_item, evs)
  else (fixed_count, self, work_item, evs).

(** [_send_for_revision] *)
Definition _send_for_revision (self : t) (work_item : WorkItem)
  : t * WorkItem * list Event :=
  let work_item := set_status work_item "needs_revision" in
  let work_item := set_revision_count work_item (revision_count work_item + 1) in
  let self := incr_failed_reviews self in
  let notice := [RevisionNotice work_item (min_overall_score (config self))] in
  if (max_revisions work_item <=? revision_count work_item)%Z
  then (self, work_item, notice ++ [Escalation work_item])
  else (self, work_item, notice).

(** [_update_agent_performance] *)
Definition _update_agent_performance (self : t) (work_item : WorkItem) : t :=
  let agent_name := agent_name work_item in
  let agent_stats :=
    match agent_performance self !! agent_name with
    | Some stats => stats
    | None => AgentStats.initial
    end in
  let total := AgentStats.total_reviews agent_stats + 1 in
  let approved := String.eqb (status work_item) "approved" in
  let passed :=
    if approved then AgentStats.passed_reviews agent_stats + 1
    else AgentStats.passed_reviews agent_stats in
  let failed :=
    if approved then AgentStats.failed_reviews agent_stats
    else AgentStats.failed_reviews agent_stats + 1 in
  let avg :=
    ((AgentStats.avg_quality_score agent_stats * (QofN total - 1)
      + overall_score (quality_metrics work_item)) / QofN total)%Q in
  let agent_stats :=
    {| AgentStats.total_reviews := total;
       AgentStats.passed_reviews := passed;
       AgentStats.failed_reviews := failed;
       AgentStats.avg_quality_score := avg;
       AgentStats.revision_rate := (QofN failed / QofN total)%Q;
       AgentStats.specialties := AgentStats.specialties agent_stats;
       AgentStats.improvement_areas := AgentStats.improvement_areas agent_stats |} in
  let self :=
    set_agent_performance self (<[agent_name := agent_stats]> (agent_performance self)) in
  set_agent_score self agent_name avg.

(** [work_item.status = "approved"; passed_reviews += 1] *)
Definition approve (self : t) (work_item : WorkItem) : t * WorkItem * list Event :=
  (incr_passed_reviews self, set_status work_item "approved", []).

Definition is_approvable (q : QualityStandard) : bool :=
  match q with
  | EXCELLENT | GOOD | ACCEPTABLE => true
  | _ => false
  end.

(** The decision taken on the first classification: the [if]/[elif]
    chain of [_review_work_item].  It fails only if the second review
    does. *)
Definition decide_action (rt : Runtime) (self : t) (work_item : WorkItem)
    (quality_standard : QualityStandard) : result unit * t * WorkItem * list Event :=
  let ok := fun '(self, work_item, evs) => (Ok tt, self, work_item, evs) in
  match quality_standard with
  | EXCELLENT | GOOD => ok (approve self work_item)
  | ACCEPTABLE => ok (approve self work_item)
  | NEEDS_IMPROVEMENT =>
      if auto_fix_enabled (config self) then
        let '(fixed_count, self, work_item, evs1) := _attempt_auto_fixes rt self work_item in
        if 0 <? fixed_count then
          let pass := [ReviewPass work_item] in
          match review_work_item rt work_item with
          | (Raise e, work_item) => (Raise e, self, work_item, evs1 ++ pass)
          | (Ok (quality_standard, issues), work_item) =>
              let work_item := set_issues work_item issues in
              let '(self, work_item, evs2) :=
                if is_approvable quality_standard then approve self work_item
                else _send_for_revision self work_item in
              (Ok tt, self, work_item, evs1 ++ pass ++ evs2)
          end
        else
          let '(self, work_item, evs2) := _send_for_revision self work_item in
          (Ok tt, self, work_item, evs1 ++ evs2)
      else ok (_send_for_revision self work_item)
  | UNACCEPTABLE => ok (_send_for_revision self work_item)
  end.

(** The [try] block of [_review_work_item]. *)
Definition review_try (rt : Runtime) (self : t) (work_item : WorkItem)
  : result unit * t * WorkItem * list Event :=
  let self := set_active_reviews self ({[ id work_item ]} ∪ active_reviews self) in
  let pass := [ReviewPass work_item] in
  match review_work_item rt work_item with
  | (Raise e, work_item) => (Raise e, self, work_item, pass)
  | (Ok (quality_standard, issues), work_item) =>
      let work_item := set_issues work_item issues in
      let self := incr_total_reviews self in
      match decide_action rt self work_item quality_standard with
      | (Raise e, self, work_item, evs) => (Raise e, self, work_item, pass ++ evs)
      | (Ok _, self, work_item, evs) =>
          let stored := [ReviewStored work_item] in
          let self := _update_agent_performance self work_item in
          (Ok tt, self, work_item, pass ++ evs ++ stored)
      end
  end.

(** [_review_work_item]: the [except] clause marks the item, the
    [finally] clause takes it out of the active reviews. *)
Definition _review_work_item (rt : Runtime) (self : t) (work_item : WorkItem)
  : t * WorkItem * list Event :=
  let '(outcome, self, work_item, evs) := review_try rt self work_item in
  let work_item :=
    match outcome with
    | Ok _ => work_item
    | Raise _ => set_status work_item "error"
    end in
  (set_active_reviews self (active_reviews self ∖ {[ id work_item ]}), work_item, evs).

(** Items processed one after the other, as the queue consumer does. *)
Fixpoint process_all (rt : Runtime) (self : t) (work_items : list WorkItem)
  : t * list WorkItem * list Event :=
  match work_items with
  | [] => (self, [], [])
  | work_item :: rest =>
      let '(self1, done, evs1) := _review_work_item rt self work_item in
      let '(self2, dones, evs2) := process_all rt self1 rest in
      (self2, done :: dones, evs1 ++ evs2)
  end.


End CEOQualityControlAgent.

(** ** Reading the outcome of a run *)

Definition agent_after {A B C : Type} (r : A * B * C) : A := r.1.1.
Definition item_after {A B C : Type} (r : A * B * C) : B := r.1.2.
Definition events_of {A B C : Type} (r : A * B * C) : C := r.2.

(** Whether the [try] block ran to its end or raised. *)
Definition outcome_of {A B C D : Type} (r : A * B * C * D) : A := fst (fst (fst r)).

(** The arithmetic mean of the six sub-scores. *)
Definition mean_of_sub_scores (m : QualityMetrics) : Q :=
  ((code_quality m + test_coverage m + documentation_completeness m
    + security_score m + performance_score m + architecture_compliance m) / 6)%Q.

Definition in_unit_interval (x : Q) : Prop := (0 <= x)%Q /\ (x <= 1)%Q.





(** A text without a line break. *)
Fixpoint single_line (s : string) : bool :=
  match s with
  | EmptyString => true
  | String c s' => negb (Ascii.eqb c PyStr.NL) && single_line s'
  end.

(** The number of lines that open a function definition. *)
Definition count_def_lines (lines : list string) : nat :=
  length (List.filter AutoFixEngine.is_def_line lines).


(** ** Sample inputs *)

Module Samples.
Import PyStr.

Definition ff : string -> Q -> string := fun _ _ => "0.70".
Definition fw : string -> bool := fun _ => true.

(** A source file that calls [eval]. *)
Definition eval_item : WorkItem :=
  new_WorkItem "item-1" CODE "/projects/demo/app.py" "agent-a" "demo" "eval(x)" [].

(** A runtime in which the name [work_item] is bound at module level. *)
Definition bound_runtime : Runtime :=
  {| global_work_item := Some eval_item; float_format := ff; file_writable := fw |}.

Definition slow_code : string :=
  "while True: for i in range(10000): time.sleep(5) recursive factorial "
  +:+ "if a if b if c if d if e if f if g if h if i".

(** Scores 0.3, 0.7, 0.8, 1.0, 0.2, 1.0 when the name is bound. *)
Definition slow_item : WorkItem :=
  new_WorkItem "item-2" CODE "/projects/demo/slow.py" "agent-a" "demo" slow_code [].

(** Scores 0.3, 0.7, 0.8, 0.4, 0.2, 1.0 when the name is bound. *)
Definition unsafe_item : WorkItem :=
  new_WorkItem "item-3" CODE "/projects/demo/unsafe.py" "agent-a" "demo"
    (slow_code +:+ " eval(x) exec(y) input(z)") [].

Definition third_revision : WorkItem := set_revision_count eval_item 2.

Definition section_issue : QualityIssue :=
  mkIssue "missing_section" "medium" "Documentation missing required section: usage"
          (Some "/projects/demo/README.md") "Add usage section to documentation" true.

Definition test_issue : QualityIssue :=
  mkIssue "missing_test_type" "high" "Missing unit tests"
          (Some "/projects/demo/test_app.py") "Add unit tests" true.

Definition code_issue : QualityIssue :=
  mkIssue "missing_documentation" "medium" "Code lacks proper documentation"
          (Some "/projects/demo/app.py") "Add docstrings and comments" true.

Definition function_text : string :=
  "def f():" +:+ String NL "    return 1".

(** An item with all six sub-scores at 1 and one critical issue on
    record. *)
Definition flawless_but_critical : WorkItem :=
  set_issues
    (set_quality_metrics eval_item
       (calculate_overall_score
          {| code_quality := 1; test_coverage := 1; documentation_completeness := 1;
             security_score := 1; performance_score := 1; architecture_compliance := 1;
             overall_score := 0 |}))
    [ {| issue_type := "dangerous_eval"; severity := "critical";
         description := "Use of eval() function is dangerous";
         issue_file_path := None; line_number := None;
         suggested_fix := Some "Remove or properly secure dangerous eval";
         auto_fixable := false; agent_responsible := None |} ].

End Samples.

(** * Properties *)

Import PyStr Re QualityReviewEngine AutoFixEngine CEOQualityControlAgent.

(** ** Arithmetic on scores *)


Lemma Qlt_bool_false (x y : Q) : Qlt_bool x y = false <-> (y <= x)%Q.
Proof.
  unfold Qlt_bool. rewrite negb_false_iff. apply Qle_bool_iff.
Qed.

Lemma Qle_bool_false (x y : Q) : Qle_bool x y = false <-> (y < x)%Q.
Proof.
  split.
  - intros H. apply Qnot_le_lt. intros Hle. apply Qle_bool_iff in Hle. congruence.
  - intros H. destruct (Qle_bool x y) eqn:E; [|reflexivity].
    apply Qle_bool_iff in E. exfalso. exact (Qlt_not_le _ _ H E).
Qed.








(** ** The sub-scores *)

Lemma code_quality_score_range (content : string) :
  in_unit_interval (_calculate_code_quality_score content).
Proof.
  unfold _calculate_code_quality_score.
  destruct (_has_error_handling content), (_has_logging content),
    (_has_documentation content), (10 <? _calculate_complexity content),
    (5 <? _calculate_complexity content);
    vm_compute; split; discriminate.
Qed.








(** ** The review engine *)

(** With no global [work_item] the metrics computation stops at the
    documentation score: the first two sub-scores are stored, the rest of
    the metrics is as before. *)
Lemma metrics_unbound (rt : Runtime) (w : WorkItem) :
  global_work_item rt = None ->
  _calculate_quality_metrics rt w
  = (Raise (NameError "work_item"),
     set_quality_metrics w
       (set_test_coverage
          (set_code_quality (quality_metrics w) (_calculate_code_quality_score (content w)))
          (_calculate_test_coverage (file_path w)))).
Proof.
  intros H. unfold _calculate_quality_metrics, _calculate_documentation_completeness.
  rewrite H. reflexivity.
Qed.

Lemma metrics_bound (rt : Runtime) (w g : WorkItem) :
  global_work_item rt = Some g ->
  exists w', _calculate_quality_metrics rt w = (Ok tt, w').
Proof.
  intros H. unfold _calculate_quality_metrics, _calculate_documentation_completeness.
  rewrite H. destruct (negb _); eexists; reflexivity.
Qed.


Lemma review_unbound (rt : Runtime) (w : WorkItem) :
  global_work_item rt = None ->
  review_work_item rt w
  = (Raise (NameError "work_item"),
     set_quality_metrics w
       (set_test_coverage
          (set_code_quality (quality_metrics w) (_calculate_code_quality_score (content w)))
          (_calculate_test_coverage (file_path w)))).
Proof.
  intros H. unfold review_work_item. rewrite (metrics_unbound rt w H). reflexivity.
Qed.

Lemma review_bound (rt : Runtime) (w g : WorkItem) :
  global_work_item rt = Some g ->
  exists q found w', review_work_item rt w = (Ok (q, found), w').
Proof.
  intros H. unfold review_work_item.
  destruct (metrics_bound rt w g H) as [w' ->]. eauto.
Qed.

(** A pass raises exactly when the name is unbound. *)
Lemma review_raises (rt : Runtime) (w : WorkItem) (e : exn) :
  (review_work_item rt w).1 = Raise e -> global_work_item rt = None.
Proof.
  destruct (global_work_item rt) as [g|] eqn:Hg; [|reflexivity].
  destruct (review_bound rt w g Hg) as (q & found & w' & ->). discriminate.
Qed.



Lemma no_critical_filter (l : list QualityIssue) :
  Forall (fun i => severity i <> "critical") l -> List.filter is_critical l = [].
Proof.
  induction 1 as [|i l Hi _ IH]; [reflexivity|]. simpl.
  unfold is_critical at 1. apply String.eqb_neq in Hi. rewrite Hi. exact IH.
Qed.

Lemma some_critical_filter (l : list QualityIssue) :
  Exists (fun i => severity i = "critical") l ->
  0 < length (List.filter is_critical l).
Proof.
  induction 1 as [i l Hi|i l _ IH]; simpl.
  - unfold is_critical at 1. apply String.eqb_eq in Hi. rewrite Hi. simpl. lia.
  - destruct (is_critical i); simpl; lia.
Qed.

(** X1. A critical issue in the stored list makes the class unacceptable,
    whatever the score. *)
Lemma stored_critical_issue_is_unacceptable (w : WorkItem) :
  Exists (fun i => severity i = "critical") (issues w) ->
  _determine_quality_standard w = UNACCEPTABLE.
Proof.
  intros H. apply some_critical_filter in H. unfold _determine_quality_standard.
  apply Nat.ltb_lt in H. rewrite H. reflexivity.
Qed.

(** C7. For every work item with no critical issue recorded the class is
    fixed by the overall score alone: excellent from 0.9, good from 0.8,
    acceptable from 0.7, needs_improvement from 0.6 and unacceptable
    below 0.6. *)
Theorem quality_ladder (w : WorkItem) :
  Forall (fun i => severity i <> "critical") (issues w) ->
  let s := overall_score (quality_metrics w) in
  let q := _determine_quality_standard w in
  ((0.9 <= s)%Q -> q = EXCELLENT)
  /\ ((0.8 <= s)%Q /\ (s < 0.9)%Q -> q = GOOD)
  /\ ((0.7 <= s)%Q /\ (s < 0.8)%Q -> q = ACCEPTABLE)
  /\ ((0.6 <= s)%Q /\ (s < 0.7)%Q -> q = NEEDS_IMPROVEMENT)
  /\ ((s < 0.6)%Q -> q = UNACCEPTABLE).
Proof.
  intros Hnone s q. subst q. unfold _determine_quality_standard.
  rewrite (no_critical_filter _ Hnone). simpl. fold s.
  repeat split.
  - intros H. apply Qle_bool_iff in H. rewrite H. reflexivity.
  - intros [H1 H2]. apply Qle_bool_iff in H1. apply Qle_bool_false in H2.
    rewrite H2, H1. reflexivity.
  - intros [H1 H2].
    assert (H3 : (s < 0.9)%Q) by (eapply Qlt_trans; [exact H2 | reflexivity]).
    apply Qle_bool_iff in H1. apply Qle_bool_false in H2, H3.
    rewrite H3, H2, H1. reflexivity.
  - intros [H1 H2].
    assert (H3 : (s < 0.8)%Q) by (eapply Qlt_trans; [exact H2 | reflexivity]).
    assert (H4 : (s < 0.9)%Q) by (eapply Qlt_trans; [exact H3 | reflexivity]).
    apply Qle_bool_iff in H1. apply Qle_bool_false in H2, H3, H4.
    rewrite H4, H3, H2, H1. reflexivity.
  - intros H1.
    assert (H2 : (s < 0.7)%Q) by (eapply Qlt_trans; [exact H1 | reflexivity]).
    assert (H3 : (s < 0.8)%Q) by (eapply Qlt_trans; [exact H2 | reflexivity]).
    assert (H4 : (s < 0.9)%Q) by (eapply Qlt_trans; [exact H3 | reflexivity]).
    apply Qle_bool_false in H1, H2, H3, H4.
    rewrite H4, H3, H2, H1. reflexivity.
Qed.

(** The ladder at an item scored 5/6 with no issues: the class is good. *)
Lemma quality_ladder_witness :
  _determine_quality_standard
    (set_quality_metrics Samples.eval_item
       (calculate_overall_score
          {| code_quality := 1; test_coverage := 1; documentation_completeness := 1;
             security_score := 1; performance_score := 1; architecture_compliance := 0;
             overall_score := 0 |}))
  = GOOD.
Proof.
  refine (proj1 (proj2 (quality_ladder _ _)) _).
  - constructor.
  - split; vm_compute; congruence.
Defined.

(** C1. The item whose content is [eval(x)], on its first pass.  As the
    module is written the pass raises and returns no class.  Were the
    name [work_item] bound, the pass would find the critical issue
    [dangerous_eval] and still return the class good, from the score
    4.9/6 alone: the class is computed before the issues of the pass are
    stored in the item. *)
Theorem critical_issue_of_the_pass_is_not_consulted :
  (forall ff fw,
     (review_work_item (module_runtime ff fw) Samples.eval_item).1
     = Raise (NameError "work_item"))
  /\ match (review_work_item Samples.bound_runtime Samples.eval_item).1 with
     | Ok (q, found) => q = GOOD /\ existsb is_critical found = true
     | Raise _ => False
     end.
Proof.
  split.
  - intros ff fw. rewrite review_unbound by reflexivity. reflexivity.
  - vm_compute. split; reflexivity.
Qed.

(** As the module is written, the orchestrator runs one pass, marks the
    item, and touches neither the dashboard nor the agent records. *)
Lemma unbound_review_marks_error
    (ff : string -> Q -> string) (fw : string -> bool) (w : WorkItem) (self : t) :
  let out := _review_work_item (module_runtime ff fw) self w in
  status (item_after out) = "error"
  /\ events_of out = [ReviewPass w]
  /\ dashboard_data (agent_after out) = dashboard_data self
  /\ agent_performance (agent_after out) = agent_performance self.
Proof.
  intros out. subst out. unfold _review_work_item, review_try.
  rewrite review_unbound by reflexivity. simpl. auto.
Qed.

(** C2. As the module is written, the metrics computation of every work
    item raises [NameError] for the name [work_item], so does every review
    pass, and the orchestrator leaves the item in status error: nothing
    but the one pass happens, and no counter moves. *)
Theorem metrics_computation_always_raises
    (ff : string -> Q -> string) (fw : string -> bool) (w : WorkItem) :
  let rt := module_runtime ff fw in
  (_calculate_quality_metrics rt w).1 = Raise (NameError "work_item")
  /\ (review_work_item rt w).1 = Raise (NameError "work_item")
  /\ forall self,
       let out := _review_work_item rt self w in
       status (item_after out) = "error"
       /\ events_of out = [ReviewPass w]
       /\ dashboard_data (agent_after out) = dashboard_data self
       /\ agent_performance (agent_after out) = agent_performance self.
Proof.
  intros rt. split; [|split].
  - unfold rt. rewrite metrics_unbound by reflexivity. reflexivity.
  - unfold rt. rewrite review_unbound by reflexivity. reflexivity.
  - intros self. apply unbound_review_marks_error.
Qed.

(** C6. For a freshly created work item, as the module is written: the
    metrics computation raises after the code-quality and test-coverage
    scores are stored and before the overall score is recomputed, so the
    item is left with overall score 0 and a mean of sub-scores that is not
    0. *)
Theorem overall_score_left_stale
    (ff : string -> Q -> string) (fw : string -> bool)
    (i : string) (wt : WorkType) (path agent project text : string) (reqs : list string) :
  let w := new_WorkItem i wt path agent project text reqs in
  let out := _calculate_quality_metrics (module_runtime ff fw) w in
  let m := quality_metrics out.2 in
  out.1 = Raise (NameError "work_item")
  /\ code_quality m = _calculate_code_quality_score text
  /\ test_coverage m = _calculate_test_coverage path
  /\ overall_score m = 0.0%Q
  /\ ~ (overall_score m == mean_of_sub_scores m)%Q.
Proof.
  intros w out m. subst m out.
  rewrite metrics_unbound by reflexivity. simpl.
  repeat split.
  unfold mean_of_sub_scores; simpl. intros H.
  destruct (code_quality_score_range text) as [Hc _].
  assert (Ht : (0.7 <= _calculate_test_coverage path)%Q).
  { unfold _calculate_test_coverage. destruct (contains _ _); discriminate. }
  assert (Hpos : (0 < (_calculate_code_quality_score text + _calculate_test_coverage path
                       + 0.0 + 0.0 + 0.0 + 0.0) / 6)%Q).
  { apply Qlt_shift_div_l; [reflexivity|]. rewrite Qmult_0_l.
    eapply Qlt_le_trans with (y := 0.7%Q); [reflexivity|].
    assert (E : (_calculate_code_quality_score text + _calculate_test_coverage path
                 + 0.0 + 0.0 + 0.0 + 0.0
                 == _calculate_code_quality_score text + _calculate_test_coverage path)%Q)
      by ring.
    rewrite E.
    eapply Qle_trans; [exact Ht|].
    assert (E' : (_calculate_test_coverage path == 0 + _calculate_test_coverage path)%Q)
      by ring.
    rewrite E' at 1. apply Qplus_le_l. exact Hc. }
  rewrite <- H in Hpos. discriminate.
Qed.

(** ** Revision handling *)

Lemma count_events_app (p : Event -> bool) (a b : list Event) :
  count_events p (a ++ b) = count_events p a + count_events p b.
Proof. unfold count_events. rewrite List.filter_app, length_app. reflexivity. Qed.

Lemma count_events_cons (p : Event -> bool) (e : Event) (l : list Event) :
  count_events p (e :: l) = (if p e then 1 else 0) + count_events p l.
Proof. unfold count_events. simpl. destruct (p e); reflexivity. Qed.

(** What [_send_for_revision] does, in full. *)
Lemma send_for_revision_spec (self : t) (w : WorkItem) :
  let w' := set_revision_count (set_status w "needs_revision") (revision_count w + 1) in
  _send_for_revision self w
  = (incr_failed_reviews self, w',
     RevisionNotice w' (min_overall_score (config self))
     :: (if (max_revisions w <=? revision_count w + 1)%Z then [Escalation w'] else [])).
Proof.
  unfold _send_for_revision. simpl.
  destruct (max_revisions w <=? revision_count w + 1)%Z; reflexivity.
Qed.

(** C3, as the code has it. Revision handling adds exactly one to
    [revision_count], whatever [max_revisions] is, and leaves the status
    needs_revision; it emits an escalation report exactly when the new
    count has reached [max_revisions], and the status stays
    needs_revision then too. *)
Theorem send_for_revision_counts (self : t) (w : WorkItem) :
  let out := _send_for_revision self w in
  revision_count (item_after out) = (revision_count w + 1)%Z
  /\ max_revisions (item_after out) = max_revisions w
  /\ status (item_after out) = "needs_revision"
  /\ (count_events is_Escalation (events_of out) = 1
      <-> (max_revisions w <= revision_count w + 1)%Z)
  /\ (count_events is_Escalation (events_of out) = 0
      <-> (revision_count w + 1 < max_revisions w)%Z).
Proof.
  intros out. subst out. rewrite send_for_revision_spec.
  unfold item_after, events_of. simpl.
  destruct (Z.leb_spec (max_revisions w) (revision_count w + 1)); simpl;
    repeat split; intros; try reflexivity; try assumption; try lia; try discriminate.
Qed.

(** C3 fails as stated: the submission that brings [revision_count] to
    [max_revisions] = 3 leaves the status needs_revision, and one more
    submission of the same item brings the count to 4. *)
Lemma third_revision_stays_needs_revision :
  let out := _send_for_revision (init default_config) Samples.third_revision in
  let again := _send_for_revision (agent_after out) (item_after out) in
  revision_count (item_after out) = 3%Z
  /\ max_revisions (item_after out) = 3%Z
  /\ status (item_after out) = "needs_revision"
  /\ status (item_after out) <> "escalated"
  /\ revision_count (item_after again) = 4%Z
  /\ (revision_count (item_after again) > max_revisions (item_after again))%Z.
Proof. vm_compute. repeat split; discriminate. Qed.



(** ** The orchestrator *)

Lemma fix_each_events (todo : list QualityIssue) (self : t) (w : WorkItem) (n : nat) :
  let out := fix_each self w n todo in
  n <= out.1.2
  /\ out.1.2 <= n + count_events is_TransformerCalled out.2
  /\ count_events is_ReviewPass out.2 = 0
  /\ config out.1.1.1 = config self.
Proof.
  revert self w n. induction todo as [|issue todo IH]; intros self w n; simpl.
  - unfold count_events; simpl. repeat split; lia.
  - destruct (auto_fixable issue) eqn:Ha; [|apply IH].
    unfold auto_fix_issue. rewrite Ha. simpl.
    destruct (fix_patterns (issue_type issue)) as [fix_function|].
    + destruct (negb (String.eqb (fix_function (content w) issue) (content w))).
      * specialize (IH (incr_auto_fixes self) (set_content w (fix_function (content w) issue))
                       (n + 1)).
        destruct (fix_each _ _ _ todo) as [[[s1 w1] n1] evs]. simpl in *.
        unfold count_events in *. simpl. repeat split; try lia; tauto.
      * specialize (IH self w n).
        destruct (fix_each _ _ _ todo) as [[[s1 w1] n1] evs]. simpl in *.
        unfold count_events in *. simpl. repeat split; try lia; tauto.
    + specialize (IH self w n).
      destruct (fix_each _ _ _ todo) as [[[s1 w1] n1] evs]. simpl in *.
      repeat split; try lia; tauto.
Qed.

Lemma attempt_auto_fixes_events (rt : Runtime) (self : t) (w : WorkItem) :
  let out := _attempt_auto_fixes rt self w in
  out.1.1.1 <= count_events is_TransformerCalled out.2
  /\ count_events is_ReviewPass out.2 = 0
  /\ config out.1.1.2 = config self.
Proof.
  unfold _attempt_auto_fixes.
  pose proof (fix_each_events (issues w) self w 0) as H.
  destruct (fix_each self w 0 (issues w)) as [[[s1 w1] n1] evs]. simpl in H.
  destruct H as (_ & H1 & H2 & H3).
  destruct (0 <? n1); [destruct (file_writable rt (file_path w1))|]; simpl;
    rewrite ?count_events_app; unfold count_events in *; simpl; repeat split; lia || assumption.
Qed.

Lemma send_for_revision_quiet (self : t) (w : WorkItem) :
  let out := _send_for_revision self w in
  count_events is_TransformerCalled (events_of out) = 0
  /\ count_events is_ReviewPass (events_of out) = 0.
Proof.
  simpl. rewrite send_for_revision_spec. unfold events_of. simpl.
  destruct (max_revisions w <=? revision_count w + 1)%Z; split; reflexivity.
Qed.

(** The decision: transformers run only in the needs_improvement branch
    with auto-fix enabled, a second pass only after a transformer ran, and
    nothing fails when the name [work_item] is bound. *)
Lemma decide_action_events (rt : Runtime) (self : t) (w : WorkItem) (q : QualityStandard) :
  let out := decide_action rt self w q in
  let evs := out.2 in
  (0 < count_events is_TransformerCalled evs ->
   q = NEEDS_IMPROVEMENT /\ auto_fix_enabled (config self) = true)
  /\ count_events is_ReviewPass evs <= 1
  /\ (count_events is_ReviewPass evs = 1 -> 0 < count_events is_TransformerCalled evs)
  /\ (forall g, global_work_item rt = Some g -> outcome_of out = Ok tt).
Proof.
  unfold decide_action, outcome_of.
  pose proof (send_for_revision_quiet self w) as Hs. simpl in Hs.
  destruct (_send_for_revision self w) as [[s0 w0] e0] eqn:Es.
  unfold events_of in Hs. simpl in Hs. destruct Hs as [Hs1 Hs2].
  destruct q; simpl;
    try (unfold count_events; simpl; repeat split; intros; try lia; reflexivity);
    try (rewrite Hs1, Hs2; repeat split; intros; try lia; reflexivity).
  destruct (auto_fix_enabled (config self)) eqn:Ea; simpl;
    [|rewrite Hs1, Hs2; repeat split; intros; try lia; reflexivity].
  pose proof (attempt_auto_fixes_events rt self w) as Ha. simpl in Ha.
  destruct (_attempt_auto_fixes rt self w) as [[[n1 s1] w1] evs1]. simpl in Ha.
  destruct Ha as (Ha1 & Ha2 & _).
  destruct (0 <? n1) eqn:En.
  - apply Nat.ltb_lt in En.
    destruct (review_work_item rt w1) as [[[q2 found2]|e] w2] eqn:Er; simpl.
    + pose proof (send_for_revision_quiet s1 (set_issues w2 found2)) as Hq. simpl in Hq.
      destruct (_send_for_revision s1 (set_issues w2 found2)) as [[s3 w3] e3].
      unfold events_of in Hq. simpl in Hq. destruct Hq as [Hq1 Hq2].
      destruct (is_approvable q2); simpl; rewrite !count_events_app;
        unfold count_events in *; simpl; repeat split; intros; try lia; reflexivity.
    + rewrite !count_events_app. unfold count_events in *; simpl.
      repeat split; intros; try lia.
      pose proof (review_raises rt w1 e) as Hr. rewrite Er in Hr.
      specialize (Hr eq_refl). congruence.
  - pose proof (send_for_revision_quiet s1 w1) as Hq. simpl in Hq.
    destruct (_send_for_revision s1 w1) as [[s3 w3] e3].
    unfold events_of in Hq. simpl in Hq. destruct Hq as [Hq1 Hq2].
    simpl. rewrite !count_events_app. unfold count_events in *; simpl.
    repeat split; intros; try lia; reflexivity.
Qed.

(** C10. In one run of [_review_work_item]: if the first pass returns
    unacceptable no transformer is called; a transformer is called only
    if auto-fix is enabled and the first pass returned needs_improvement;
    there are at most two passes, and a second pass only after a
    transformer was called. *)
Theorem auto_fix_only_after_needs_improvement (rt : Runtime) (self : t) (w : WorkItem) :
  let evs := events_of (_review_work_item rt self w) in
  let first := (review_work_item rt w).1 in
  (forall found, first = Ok (UNACCEPTABLE, found) ->
   count_events is_TransformerCalled evs = 0)
  /\ (0 < count_events is_TransformerCalled evs ->
      auto_fix_enabled (config self) = true
      /\ exists found, first = Ok (NEEDS_IMPROVEMENT, found))
  /\ count_events is_ReviewPass evs <= 2
  /\ (count_events is_ReviewPass evs = 2 -> 0 < count_events is_TransformerCalled evs).
Proof.
  intros evs first. subst evs first. unfold _review_work_item, review_try.
  destruct (review_work_item rt w) as [[[q found]|e] w1]; simpl.
  - set (self1 := incr_total_reviews _).
    pose proof (decide_action_events rt self1 (set_issues w1 found) q) as H.
    simpl in H. destruct H as (HT & HR & HR1 & _).
    destruct (decide_action rt self1 (set_issues w1 found) q) as [[[r s2] w2] evs2].
    simpl in *.
    match goal with
    | |- context [events_of ?x] => set (evs := events_of x)
    end.
    assert (E : count_events is_TransformerCalled evs
                = count_events is_TransformerCalled evs2
                /\ count_events is_ReviewPass evs = 1 + count_events is_ReviewPass evs2).
    { subst evs. destruct r; unfold events_of; simpl;
        rewrite ?count_events_cons, ?count_events_app; simpl;
        unfold count_events; simpl; lia. }
    destruct E as [-> ->]. clearbody evs.
    repeat split.
    + intros found' Hq. assert (Eq : q = UNACCEPTABLE) by congruence.
      destruct (count_events is_TransformerCalled evs2); [reflexivity|].
      destruct HT as [HT _]; [lia | congruence].
    + apply HT. assumption.
    + destruct HT as [-> _]; [assumption|]. eauto.
    + lia.
    + intros H. apply HR1. lia.
  - unfold events_of, count_events. simpl. repeat split; intros; try lia; discriminate.
Qed.

(** C10 at two sample items, with the name bound and auto-fix enabled.
    The first is classed needs_improvement on its first pass: transformers
    are called and one second pass follows.  The second is classed
    unacceptable on its first pass: no transformer is called. *)
Lemma auto_fix_only_after_needs_improvement_witness :
  (auto_fix_enabled (config (init default_config)) = true
   /\ exists found,
        (review_work_item Samples.bound_runtime Samples.slow_item).1
        = Ok (NEEDS_IMPROVEMENT, found))
  /\ count_events is_TransformerCalled
       (events_of (_review_work_item Samples.bound_runtime (init default_config)
                                     Samples.unsafe_item))
     = 0.
Proof.
  split.
  - refine (proj1 (proj2 (auto_fix_only_after_needs_improvement
                            Samples.bound_runtime (init default_config) Samples.slow_item)) _).
    vm_compute. lia.
  - refine (proj1 (auto_fix_only_after_needs_improvement
                     Samples.bound_runtime (init default_config) Samples.unsafe_item)
                  (run_reviewer Samples.bound_runtime Samples.unsafe_item) _).
    vm_compute. reflexivity.
Defined.



(** ** Agent performance *)










(** ** Text *)

Lemma sapp_cons (c : ascii) (s t : string) : String c s +:+ t = String c (s +:+ t).
Proof. reflexivity. Qed.

Lemma sapp_nil_l (s : string) : EmptyString +:+ s = s.
Proof. reflexivity. Qed.

Lemma sapp_nil_r (s : string) : s +:+ EmptyString = s.
Proof.
  induction s as [|c s IH]; [reflexivity|]. rewrite sapp_cons, IH. reflexivity.
Qed.

Lemma sapp_assoc (a b c : string) : (a +:+ b) +:+ c = a +:+ (b +:+ c).
Proof.
  induction a as [|x a IH]; [reflexivity|]. rewrite !sapp_cons, IH. reflexivity.
Qed.

Lemma slength_app (a b : string) :
  String.length (a +:+ b) = String.length a + String.length b.
Proof.
  induction a as [|x a IH]; [reflexivity|]. rewrite sapp_cons. simpl. rewrite IH. reflexivity.
Qed.

(** Appending a non-empty text changes a text. *)
Lemma sapp_changes (s : string) (c : ascii) (x : string) : s +:+ String c x <> s.
Proof.
  intros E. apply (f_equal String.length) in E. rewrite slength_app in E. simpl in E. lia.
Qed.

Lemma prefix_app (n y : string) : String.prefix n (n +:+ y) = true.
Proof.
  induction n as [|c n IH]; [destruct y; reflexivity|].
  rewrite sapp_cons. simpl. destruct (ascii_dec c c); [exact IH | congruence].
Qed.

Lemma contains_here (n hay : string) : String.prefix n hay = true -> contains n hay = true.
Proof. intros H. destruct hay; simpl in *; rewrite H; reflexivity. Qed.

Lemma contains_later (n : string) (c : ascii) (hay : string) :
  contains n hay = true -> contains n (String c hay) = true.
Proof. intros H. simpl. rewrite H. apply orb_true_r. Qed.

Lemma contains_middle (x n y : string) : contains n (x +:+ (n +:+ y)) = true.
Proof.
  induction x as [|c x IH].
  - rewrite sapp_nil_l. apply contains_here, prefix_app.
  - rewrite sapp_cons. apply contains_later, IH.
Qed.

Lemma join_nl_cons (l l' : string) (ls : list string) :
  join_nl (l :: l' :: ls) = l +:+ String NL (join_nl (l' :: ls)).
Proof. reflexivity. Qed.

(** A line of a joined text is a part of the text. *)
Lemma join_nl_middle (a : list string) (n : string) (b : list string) :
  exists x y, join_nl (a ++ n :: b) = x +:+ (n +:+ y).
Proof.
  induction a as [|l a IH].
  - destruct b as [|l' b].
    + exists EmptyString, EmptyString.
      change (n = n +:+ EmptyString). symmetry. apply sapp_nil_r.
    + exists EmptyString, (String NL (join_nl (l' :: b))). reflexivity.
  - destruct IH as (x & y & E).
    exists (l +:+ String NL x), y.
    assert (Hne : exists l' r, a ++ n :: b = l' :: r)
      by (destruct a; simpl; eauto).
    destruct Hne as (l' & r & Hr). simpl app. rewrite Hr, join_nl_cons, <- Hr, E.
    rewrite sapp_assoc. reflexivity.
Qed.

(** ** The transformers *)

(** The output of [_fix_missing_logging] imports [logging]. *)
Lemma fix_missing_logging_imports (content : string) (issue : QualityIssue) :
  contains "import logging" (_fix_missing_logging content issue) = true.
Proof.
  unfold _fix_missing_logging.
  destruct (contains "import logging" content) eqn:E; simpl negb; cbv iota.
  - exact E.
  - set (imports := List.filter is_import_line (split_nl content)).
    set (others := List.filter (fun line => negb (is_import_line line)) (split_nl content)).
    rewrite <- !app_assoc. simpl app.
    destruct (join_nl_middle imports "import logging"
                ("logger = logging.getLogger(__name__)" :: EmptyString :: others))
      as (x & y & ->).
    apply contains_middle.
Qed.

(** [_fix_missing_logging] leaves its own output as it is. *)
Lemma fix_missing_logging_idempotent (content : string) (issue : QualityIssue) :
  _fix_missing_logging (_fix_missing_logging content issue) issue
  = _fix_missing_logging content issue.
Proof.
  unfold _fix_missing_logging at 1.
  rewrite fix_missing_logging_imports. reflexivity.
Qed.

(** [_fix_missing_section] appends its template on every application. *)
Lemma fix_missing_section_appends (content : string) (issue : QualityIssue) :
  match section_to_add issue with
  | Some template =>
      _fix_missing_section content issue = content +:+ String NL EmptyString +:+ template
      /\ _fix_missing_section (_fix_missing_section content issue) issue
         <> _fix_missing_section content issue
  | None => _fix_missing_section content issue = content
  end.
Proof.
  unfold _fix_missing_section.
  destruct (section_to_add issue) as [template|]; [|reflexivity].
  split; [reflexivity|].
  change (String NL EmptyString +:+ template) with (String NL template).
  apply sapp_changes.
Qed.

(** [_fix_missing_test_type] appends its template on every application. *)
Lemma fix_missing_test_type_appends (content : string) (issue : QualityIssue) :
  match test_to_add issue with
  | Some template =>
      _fix_missing_test_type content issue = content +:+ String NL EmptyString +:+ template
      /\ _fix_missing_test_type (_fix_missing_test_type content issue) issue
         <> _fix_missing_test_type content issue
  | None => _fix_missing_test_type content issue = content
  end.
Proof.
  unfold _fix_missing_test_type.
  destruct (test_to_add issue) as [template|]; [|reflexivity].
  split; [reflexivity|].
  change (String NL EmptyString +:+ template) with (String NL template).
  apply sapp_changes.
Qed.

(** *** Lines *)

Lemma split_nl_nonempty (s : string) : exists l ls, split_nl s = l :: ls.
Proof.
  induction s as [|c s (l & ls & IH)]; simpl; [eauto|].
  destruct (Ascii.eqb c NL); [eauto|]. rewrite IH. eauto.
Qed.

Lemma split_nl_single_lines (s : string) :
  Forall (fun l => single_line l = true) (split_nl s).
Proof.
  induction s as [|c s IH]; simpl.
  - apply List.Forall_cons; [reflexivity | apply List.Forall_nil].
  - destruct (Ascii.eqb c NL) eqn:E.
    + apply List.Forall_cons; [reflexivity | exact IH].
    + destruct (split_nl s) as [|l ls]; [repeat constructor; simpl; rewrite E; reflexivity|].
      apply Forall_cons in IH. destruct IH as [Hl Hls].
      apply List.Forall_cons; [|exact Hls]. simpl. rewrite E, Hl. reflexivity.
Qed.

Lemma join_split (s : string) : join_nl (split_nl s) = s.
Proof.
  induction s as [|c s IH]; simpl; [reflexivity|].
  destruct (split_nl_nonempty s) as (l & ls & E). rewrite E in *.
  destruct (Ascii.eqb_spec c NL) as [->|Hc].
  - rewrite join_nl_cons, IH. reflexivity.
  - destruct ls as [|l' ls].
    + simpl in *. rewrite IH. reflexivity.
    + rewrite join_nl_cons in *. rewrite sapp_cons, IH. reflexivity.
Qed.

Lemma split_single (l : string) : single_line l = true -> split_nl l = [l].
Proof.
  induction l as [|c l IH]; simpl; [reflexivity|].
  intros H. apply andb_true_iff in H as [Hc Hl].
  apply negb_true_iff in Hc. rewrite Hc, (IH Hl). reflexivity.
Qed.

Lemma split_app_nl (l r : string) :
  single_line l = true -> split_nl (l +:+ String NL r) = l :: split_nl r.
Proof.
  induction l as [|c l IH]; intros H.
  - reflexivity.
  - simpl in H. apply andb_true_iff in H as [Hc Hl]. apply negb_true_iff in Hc.
    rewrite sapp_cons. simpl. rewrite Hc, (IH Hl). reflexivity.
Qed.

Lemma split_join (ls : list string) :
  ls <> [] -> Forall (fun l => single_line l = true) ls -> split_nl (join_nl ls) = ls.
Proof.
  induction ls as [|l ls IH]; [congruence|]. intros _ H.
  apply Forall_cons in H. destruct H as [Hl Hls].
  destruct ls as [|l' ls].
  - apply split_single. exact Hl.
  - rewrite join_nl_cons, (split_app_nl _ _ Hl), IH; [reflexivity | congruence | exact Hls].
Qed.

(** A text without a line break does not reach across a line break. *)
Lemma prefix_cut (n x r : string) :
  single_line n = true -> String.prefix n (x +:+ String NL r) = String.prefix n x.
Proof.
  revert x. induction n as [|a n IH]; intros x H.
  - destruct x; reflexivity.
  - simpl in H. apply andb_true_iff in H as [Ha Hn]. apply negb_true_iff in Ha.
    destruct x as [|b x].
    + rewrite sapp_nil_l. simpl. destruct (ascii_dec a NL) as [->|_]; [|reflexivity].
      rewrite Ascii.eqb_refl in Ha. discriminate.
    + rewrite sapp_cons. simpl. destruct (ascii_dec a b); [apply IH; exact Hn | reflexivity].
Qed.

Lemma prefix_nl (n r : string) (a : ascii) :
  single_line (String a n) = true -> String.prefix (String a n) (String NL r) = false.
Proof.
  simpl. intros H. apply andb_true_iff in H as [Ha _]. apply negb_true_iff in Ha.
  destruct (ascii_dec a NL) as [->|_]; [|reflexivity].
  rewrite Ascii.eqb_refl in Ha. discriminate.
Qed.

(** A non-empty text without a line break occurs in a text exactly when it
    occurs in one of its lines. *)
Lemma contains_lines (a : ascii) (n s : string) :
  single_line (String a n) = true ->
  contains (String a n) s = existsb (contains (String a n)) (split_nl s).
Proof.
  intros Hn. induction s as [|c s IH].
  - reflexivity.
  - change (contains (String a n) (String c s))
      with (String.prefix (String a n) (String c s) || contains (String a n) s).
    rewrite IH. simpl split_nl.
    destruct (split_nl_nonempty s) as (l & ls & E).
    pose proof (join_split s) as J. rewrite E in *.
    destruct (Ascii.eqb_spec c NL) as [->|Hc].
    + rewrite (prefix_nl _ _ _ Hn). reflexivity.
    + cbn [existsb].
      change (contains (String a n) (String c l))
        with (String.prefix (String a n) (String c l) || contains (String a n) l).
      rewrite <- orb_assoc. f_equal.
      destruct ls as [|l' ls].
      * simpl in J. rewrite J. reflexivity.
      * rewrite join_nl_cons in J. rewrite <- J.
        rewrite <- sapp_cons. apply prefix_cut. exact Hn.
Qed.

(** *** Lines that open a function *)

Lemma match_here_one (fl : flags) (cl : cclass) (p : list item) (prev : option ascii)
    (ch : ascii) (s : string) :
  match_here fl (One cl :: p) prev (String ch s)
  = if char_in fl cl ch then glue (more ch (stop (match_here fl p) (Some ch) s)) else None.
Proof. reflexivity. Qed.

Lemma def_needs_d (prev : option ascii) (c : ascii) (s : string) :
  c <> "d"%char ->
  match_here NOFLAGS (lit "def" ++ [Plus CSpace]) prev (String c s) = None.
Proof.
  intros Hc.
  change (lit "def" ++ [Plus CSpace])
    with (One (CChar "d"%char) :: (lit "ef" ++ [Plus CSpace])).
  rewrite match_here_one.
  change (char_in NOFLAGS (CChar "d"%char) c) with (Ascii.eqb "d"%char c).
  destruct (Ascii.eqb_spec "d"%char c) as [E|_]; [congruence | reflexivity].
Qed.

Lemma def_needs_text (prev : option ascii) :
  match_here NOFLAGS (lit "def" ++ [Plus CSpace]) prev EmptyString = None.
Proof. reflexivity. Qed.

(** An indented line whose first character after the indentation is
    neither a space nor a [d] does not open a function. *)
Lemma not_a_def_line (k : nat) (c : ascii) (s : string) :
  isspace c = false -> c <> "d"%char ->
  is_def_line (spaces k +:+ String c s) = false.
Proof.
  intros Hs Hc. unfold is_def_line, re_match.
  change (match_here NOFLAGS ([Star CSpace] ++ lit "def" ++ [Plus CSpace]) None
                     (spaces k +:+ String c s))
    with (glue (rep_greedy NOFLAGS CSpace
                  (match_here NOFLAGS (lit "def" ++ [Plus CSpace])) None
                  (spaces k +:+ String c s))).
  assert (H : forall prev,
             rep_greedy NOFLAGS CSpace (match_here NOFLAGS (lit "def" ++ [Plus CSpace]))
                        prev (spaces k +:+ String c s) = None).
  { induction k as [|k IH]; intros prev.
    - rewrite sapp_nil_l. cbn [rep_greedy char_in]. rewrite Hs.
      unfold stop. rewrite (def_needs_d prev c s Hc). reflexivity.
    - cbn [spaces]. rewrite sapp_cons. cbn [rep_greedy char_in].
      change (isspace " "%char) with true. cbv iota. rewrite IH.
      unfold stop. rewrite def_needs_d by discriminate. reflexivity. }
  rewrite H. reflexivity.
Qed.

Lemma single_line_spaces (k : nat) (s : string) :
  single_line (spaces k +:+ s) = single_line s.
Proof.
  induction k as [|k IH]; [reflexivity|].
  cbn [spaces]. rewrite sapp_cons. simpl. exact IH.
Qed.

Lemma with_docstring_single_lines (l : string) :
  single_line l = true -> Forall (fun l => single_line l = true) (with_docstring l).
Proof.
  intros H. unfold with_docstring.
  destruct (is_def_line l); repeat (apply List.Forall_cons; [|]);
    try apply List.Forall_nil; try exact H; rewrite single_line_spaces; reflexivity.
Qed.

Lemma flat_map_single_lines (ls : list string) :
  Forall (fun l => single_line l = true) ls ->
  Forall (fun l => single_line l = true) (flat_map with_docstring ls).
Proof.
  induction 1 as [|l ls Hl _ IH]; simpl; [apply List.Forall_nil|].
  apply Forall_app. split; [apply with_docstring_single_lines; exact Hl | exact IH].
Qed.

Lemma count_def_lines_app (a b : list string) :
  count_def_lines (a ++ b) = count_def_lines a + count_def_lines b.
Proof. unfold count_def_lines. rewrite List.filter_app, length_app. reflexivity. Qed.

(** The lines put out for one line: the line itself, and three more that
    do not open a function when the line does. *)
Lemma with_docstring_counts (l : string) :
  count_def_lines (with_docstring l) = count_def_lines [l]
  /\ length (with_docstring l) = 1 + 3 * count_def_lines [l]
  /\ exists rest, with_docstring l = l :: rest.
Proof.
  unfold with_docstring, count_def_lines.
  destruct (is_def_line l) eqn:E; simpl; rewrite E; [|eauto].
  unfold docstring_quotes.
  rewrite !not_a_def_line by (reflexivity || discriminate).
  simpl. eauto.
Qed.

Lemma flat_map_counts (ls : list string) :
  count_def_lines (flat_map with_docstring ls) = count_def_lines ls
  /\ length (flat_map with_docstring ls) = length ls + 3 * count_def_lines ls.
Proof.
  induction ls as [|l ls [IH1 IH2]]; [split; reflexivity|].
  destruct (with_docstring_counts l) as (H1 & H2 & _).
  change (l :: ls) with ([l] ++ ls). rewrite flat_map_app. simpl flat_map.
  rewrite app_nil_r, !count_def_lines_app, !length_app, IH1, IH2, H1, H2.
  simpl length. split; lia.
Qed.

Lemma flat_map_without_def (ls : list string) :
  count_def_lines ls = 0 -> flat_map with_docstring ls = ls.
Proof.
  induction ls as [|l ls IH]; [reflexivity|].
  unfold count_def_lines. simpl. unfold with_docstring at 1.
  destruct (is_def_line l); simpl; [discriminate|].
  intros H. rewrite (IH H). reflexivity.
Qed.

Lemma flat_map_keeps_lines (p : string -> bool) (ls : list string) :
  existsb p ls = true -> existsb p (flat_map with_docstring ls) = true.
Proof.
  induction ls as [|l ls IH]; simpl; [discriminate|].
  destruct (with_docstring_counts l) as (_ & _ & rest & ->).
  rewrite existsb_app. simpl.
  destruct (p l); simpl; [reflexivity|].
  intros H. rewrite (IH H). apply orb_true_r.
Qed.

Lemma flat_map_nonempty (ls : list string) :
  ls <> [] -> flat_map with_docstring ls <> [].
Proof.
  destruct ls as [|l ls]; [congruence|]. intros _. simpl.
  destruct (with_docstring_counts l) as (_ & _ & rest & ->). discriminate.
Qed.

(** [_fix_missing_documentation] leaves its own output as it is exactly
    when it left the content as it was. *)
Lemma fix_missing_documentation_reapplied (content : string) (issue : QualityIssue) :
  _fix_missing_documentation (_fix_missing_documentation content issue) issue
  = _fix_missing_documentation content issue
  <-> _fix_missing_documentation content issue = content.
Proof.
  split; [|intros E; rewrite !E; reflexivity].
  unfold _fix_missing_documentation at 2 3 4.
  destruct (contains "def " content) eqn:Hdef; [|reflexivity].
  set (L := split_nl content).
  set (L1 := flat_map with_docstring L).
  assert (HL : Forall (fun l => single_line l = true) L) by apply split_nl_single_lines.
  assert (HLne : L <> []).
  { subst L. destruct (split_nl_nonempty content) as (l & ls & ->). discriminate. }
  assert (HL1 : Forall (fun l => single_line l = true) L1)
    by (apply flat_map_single_lines; exact HL).
  assert (HL1ne : L1 <> []) by (apply flat_map_nonempty; exact HLne).
  assert (Hsplit : split_nl (join_nl L1) = L1) by (apply split_join; assumption).
  assert (Hdef1 : contains "def " (join_nl L1) = true).
  { rewrite contains_lines by reflexivity. rewrite Hsplit.
    apply flat_map_keeps_lines. subst L.
    rewrite <- contains_lines by reflexivity. exact Hdef. }
  unfold _fix_missing_documentation. rewrite Hdef1, Hsplit.
  intros E. apply (f_equal split_nl) in E.
  rewrite Hsplit in E.
  rewrite split_join in E;
    [|apply flat_map_nonempty; exact HL1ne | apply flat_map_single_lines; exact HL1].
  apply (f_equal (@length string)) in E.
  destruct (flat_map_counts L1) as [_ Hlen]. rewrite Hlen in E.
  destruct (flat_map_counts L) as [Hcount _]. fold L1 in Hcount.
  assert (H0 : count_def_lines L = 0) by lia.
  subst L1. rewrite (flat_map_without_def L H0). subst L. apply join_split.
Qed.

(** Content without the text [def ] is left as it is by the two
    transformers that rewrite function bodies. *)
Lemma fix_without_def (content : string) (issue : QualityIssue) :
  contains "def " content = false ->
  _fix_missing_documentation content issue = content
  /\ _fix_missing_error_handling content issue = content.
Proof.
  intros H. unfold _fix_missing_documentation, _fix_missing_error_handling.
  rewrite H. split; reflexivity.
Qed.

(** C5, as the code has it. Applying a registered transformer to its own
    output: [_fix_missing_logging] returns it unchanged for every content;
    [_fix_missing_documentation] returns it unchanged exactly when its
    first application changed nothing, which is so for content without
    the text [def ], where [_fix_missing_error_handling] changes nothing
    either; [_fix_missing_section] and [_fix_missing_test_type] change
    nothing when the issue description names no section or test type, and
    otherwise append their template again on every application. These
    five are the registry. *)
Theorem reapplying_a_transformer (content : string) (issue : QualityIssue) :
  (forall ty f, fix_patterns ty = Some f -> In f registered)
  /\ _fix_missing_logging (_fix_missing_logging content issue) issue
     = _fix_missing_logging content issue
  /\ (_fix_missing_documentation (_fix_missing_documentation content issue) issue
      = _fix_missing_documentation content issue
      <-> _fix_missing_documentation content issue = content)
  /\ (contains "def " content = false ->
      _fix_missing_documentation content issue = content
      /\ _fix_missing_error_handling content issue = content)
  /\ match section_to_add issue with
     | Some template =>
         _fix_missing_section content issue = content +:+ String NL EmptyString +:+ template
         /\ _fix_missing_section (_fix_missing_section content issue) issue
            <> _fix_missing_section content issue
     | None => _fix_missing_section content issue = content
     end
  /\ match test_to_add issue with
     | Some template =>
         _fix_missing_test_type content issue = content +:+ String NL EmptyString +:+ template
         /\ _fix_missing_test_type (_fix_missing_test_type content issue) issue
            <> _fix_missing_test_type content issue
     | None => _fix_missing_test_type content issue = content
     end.
Proof.
  split.
  { intros ty f. unfold fix_patterns, registered.
    repeat match goal with
           | |- context [String.eqb ty ?s] => destruct (String.eqb ty s)
           end;
      intros H; try discriminate; injection H as <-; simpl; tauto. }
  split; [apply fix_missing_logging_idempotent|].
  split; [apply fix_missing_documentation_reapplied|].
  split; [apply fix_without_def|].
  split; [apply fix_missing_section_appends | apply fix_missing_test_type_appends].
Qed.

(** C5 fails as stated: four of the five transformers change their own
    output when applied to it again. *)
Lemma reapplied_transformers_change_their_output :
  let text := Samples.function_text in
  let documented := _fix_missing_documentation text Samples.code_issue in
  let guarded := _fix_missing_error_handling text Samples.code_issue in
  let with_section := _fix_missing_section "# Demo" Samples.section_issue in
  let with_test := _fix_missing_test_type "import app" Samples.test_issue in
  _fix_missing_documentation documented Samples.code_issue <> documented
  /\ _fix_missing_error_handling guarded Samples.code_issue <> guarded
  /\ _fix_missing_section with_section Samples.section_issue <> with_section
  /\ _fix_missing_test_type with_test Samples.test_issue <> with_test.
Proof.
  repeat split; apply String.eqb_neq; vm_compute; reflexivity.
Qed.

(** ** Further properties *)

(** X1 at six sub-scores of 1 and one critical issue on record: the class
    is unacceptable. *)
Lemma stored_critical_issue_is_unacceptable_witness :
  _determine_quality_standard Samples.flawless_but_critical = UNACCEPTABLE.
Proof.
  apply stored_critical_issue_is_unacceptable.
  apply Exists_cons_hd. reflexivity.
Defined.



Lemma process_all_cons (rt : Runtime) (self : t) (w : WorkItem) (ws : list WorkItem) :
  process_all rt self (w :: ws)
  = let '(self1, done, evs1) := _review_work_item rt self w in
    let '(self2, dones, evs2) := process_all rt self1 ws in
    (self2, done :: dones, evs1 ++ evs2).
Proof. reflexivity. Qed.

(** X4. As the module is written, a run of the queue consumer over any
    list of items leaves every one of them in status error, with one pass
    per item and nothing else, and the dashboard and the agent records as
    they were. *)
Lemma every_item_ends_in_error
    (ff : string -> Q -> string) (fw : string -> bool)
    (work_items : list WorkItem) (self : t) :
  let out := process_all (module_runtime ff fw) self work_items in
  Forall (fun w => status w = "error") (item_after out)
  /\ events_of out = map ReviewPass work_items
  /\ dashboard_data (agent_after out) = dashboard_data self
  /\ agent_performance (agent_after out) = agent_performance self.
Proof.
  revert self. induction work_items as [|w ws IH]; intros self.
  - simpl. unfold item_after, events_of, agent_after. simpl.
    repeat split. apply List.Forall_nil.
  - rewrite process_all_cons.
    destruct (unbound_review_marks_error ff fw w self) as (Hs & He & Hd & Hp).
    destruct (_review_work_item (module_runtime ff fw) self w) as [[self1 w1] evs1].
    unfold item_after, events_of, agent_after in Hs, He, Hd, Hp. simpl in Hs, He, Hd, Hp.
    specialize (IH self1). simpl in IH.
    destruct (process_all (module_runtime ff fw) self1 ws) as [[self2 done] evs2].
    unfold item_after, events_of, agent_after in *. simpl in *.
    destruct IH as (I1 & I2 & I3 & I4).
    repeat split.
    + apply List.Forall_cons; assumption.
    + rewrite He, I2. reflexivity.
    + congruence.
    + congruence.
Qed.
